(** * pygame_gui_extras: application scaffold, three-panel layout, tiled image

    A shallow embedding of the three modules of the package

      - [pygame_gui_extras/app/gui_app.py]        (class [GuiApp])
      - [pygame_gui_extras/app/ThreePanelApp.py]  (class [ThreePanelApp])
      - [pygame_gui_extras/ui_image_tiled.py]     (class [UIImageTiled])

    followed by the properties of the design notes that concern them.

    Python values are modelled as the interpreter has them: [int] is [Z],
    [float] is the kernel's binary64 type, a dict with string keys is a
    [gmap string _], an attribute that is not assigned yet is [None].
    pygame and pygame_gui are external: only the part of their behaviour the
    package relies on is modelled, and each such place says so. *)

From Stdlib Require Import ZArith QArith Floats.
From stdpp Require Import base option list strings gmap.

Local Open Scope Z_scope.

(** ** Python numbers *)

Module Py.

(** [Union[int, float]]: the two numeric types the package computes with. *)
Inductive num : Type :=
| Int (z : Z)
| Float (f : float).

(** [float(z)]: the nearest binary64 value, ties to even.  (CPython raises
    [OverflowError] where this rounds to an infinity, from 2^1024 on; pixel
    counts and fractions are far below.) *)
Definition float_of_int (z : Z) : float :=
  SF2Prim (binary_normalize prec emax z 0 false).

Definition to_float (x : num) : float :=
  match x with
  | Int z => float_of_int z
  | Float f => f
  end.

(** Binary arithmetic: exact on two ints, binary64 as soon as one operand
    is a float (the int operand is converted first). *)
Definition add (x y : num) : num :=
  match x, y with
  | Int a, Int b => Int (a + b)
  | _, _ => Float (to_float x + to_float y)
  end.

Definition sub (x y : num) : num :=
  match x, y with
  | Int a, Int b => Int (a - b)
  | _, _ => Float (to_float x - to_float y)
  end.

Definition mul (x y : num) : num :=
  match x, y with
  | Int a, Int b => Int (a * b)
  | _, _ => Float (to_float x * to_float y)
  end.

Definition neg (x : num) : num :=
  match x with
  | Int a => Int (- a)
  | Float f => Float (- f)
  end.

(** [int / float] and [float / float] (true division by a float). *)
Definition truediv_float (x : num) (d : float) : float :=
  (to_float x / d)%float.

Definition of_comparison (c : comparison) : float_comparison :=
  match c with
  | Eq => FEq
  | Lt => FLt
  | Gt => FGt
  end.

(** An int against a float: CPython compares the exact values, without
    rounding the int. *)
Definition compare_int_float (z : Z) (f : float) : float_comparison :=
  match Prim2SF f with
  | S754_nan => FNotComparable
  | S754_infinity negative => if negative then FGt else FLt
  | S754_zero _ => of_comparison (z ?= 0)
  | S754_finite negative m e =>
      let v := if negative then Z.neg m else Z.pos m in
      if 0 <=? e then of_comparison (z ?= v * 2 ^ e)
      else of_comparison (z * 2 ^ (- e) ?= v)
  end.

Definition flip (c : float_comparison) : float_comparison :=
  match c with
  | FLt => FGt
  | FGt => FLt
  | c => c
  end.

Definition compare (x y : num) : float_comparison :=
  match x, y with
  | Int a, Int b => of_comparison (a ?= b)
  | Int a, Float g => compare_int_float a g
  | Float f, Int b => flip (compare_int_float b f)
  | Float f, Float g => PrimFloat.compare f g
  end.

(** [x > y], [x <= y], [x == y]; all three are false on a NaN. *)
Definition gt (x y : num) : bool :=
  match compare x y with FGt => true | _ => false end.

Definition le (x y : num) : bool :=
  match compare x y with FLt | FEq => true | _ => false end.

Definition eq (x y : num) : bool :=
  match compare x y with FEq => true | _ => false end.

(** The value of a number as a rational; [None] for an infinity or a NaN. *)
Definition exact (x : num) : option Q :=
  match x with
  | Int z => Some (inject_Z z)
  | Float f =>
      match Prim2SF f with
      | S754_zero _ => Some (inject_Z 0)
      | S754_finite negative m e =>
          Some (Qmult (inject_Z (if negative then Z.neg m else Z.pos m))
                      (Qpower (inject_Z 2) e))
      | _ => None
      end
  end.

(** [int(x)]: the fraction of a float is dropped, towards zero.  [None] is
    the [ValueError] or [OverflowError] of a NaN or an infinity. *)
Definition trunc (x : num) : option Z :=
  match x with
  | Int z => Some z
  | Float f =>
      match Prim2SF f with
      | S754_zero _ => Some 0
      | S754_finite negative m e =>
          let v := if 0 <=? e then Z.pos m * 2 ^ e else Z.pos m / 2 ^ (- e) in
          Some (if negative then - v else v)
      | _ => None
      end
  end.

(** A number that is the whole number [z], as an int or as a float. *)
Definition whole (x : num) (z : Z) : Prop :=
  x = Int z ∨ x = Float (float_of_int z).


(** [range(0, stop, step)] as the list it iterates over; [None] is the
    [ValueError] of a zero step. *)
Definition range0 (stop step : Z) : option (list Z) :=
  if decide (step = 0) then None
  else
    let n := if decide (0 < step)
             then (stop + step - 1) / step
             else (- stop - step - 1) / (- step) in
    Some ((λ k : nat, Z.of_nat k * step) <$> seq 0 (Z.to_nat n)).

End Py.

(** ** pygame and pygame_gui, as far as the package uses them *)

Module Pygame.

(** A [(width, height)] pair of pixels. *)
Definition Size : Type := Z * Z.

(** [event.type], of which the scaffold tells apart two values. *)
Inductive EventType : Type :=
| QUIT
| WINDOWRESIZED
| OTHER (code : Z).

#[global] Instance EventType_eq_dec : EqDecision EventType.
Proof. solve_decision. Defined.

Record Event : Type := mkEvent {
  type : EventType;
  serial : Z            (* tells two events of one type apart *)
}.

#[global] Instance Event_eq_dec : EqDecision Event.
Proof. solve_decision. Defined.

(** The pixel data of a surface, described by how it was produced. *)
Inductive Pixels : Type :=
| Loaded (name : string)                 (* came from outside, e.g. a file *)
| Blank                                  (* a new [pygame.Surface] *)
| Filled (colour : string)               (* [fill] of the whole surface *)
| Blit (dst src : Pixels) (src_size : Size) (pos : Z * Z)
| ConvertAlpha (p : Pixels)
| PremulAlpha (p : Pixels)
| SmoothScale (p : Pixels) (src_size new_size : Size).

Record Surface : Type := mkSurface {
  get_size : Size;
  pixels : Pixels
}.

Definition get_width (s : Surface) : Z := fst (get_size s).
Definition get_height (s : Surface) : Z := snd (get_size s).

(** The offsets at which something was blitted onto the pixels, oldest
    first. *)
Fixpoint blit_offsets (p : Pixels) : list (Z * Z) :=
  match p with
  | Blit dst _ _ pos => blit_offsets dst ++ [pos]
  | _ => []
  end.

(** [pygame.Rect(x, y, w, h)], by its arguments.  The rectangle pygame
    builds keeps each of them as a C int, a float by the C cast, which drops
    the fraction as [int] does: these are the attributes below, [None]
    where the argument is an infinity or a NaN and the cast is undefined.
    (Beyond the bounds of a C int pygame fails; the sizes of a window are
    far below.) *)
Record Rect : Type := mkRect {
  rect_x : Py.num;
  rect_y : Py.num;
  rect_w : Py.num;
  rect_h : Py.num
}.

Definition rect_left (r : Rect) : option Z := Py.trunc (rect_x r).
Definition rect_top (r : Rect) : option Z := Py.trunc (rect_y r).
Definition rect_width (r : Rect) : option Z := Py.trunc (rect_w r).
Definition rect_height (r : Rect) : option Z := Py.trunc (rect_h r).

(** The display surface returned by [pygame.display.set_mode]; pygame
    resizes this very object when the window is resized. *)
Record Display : Type := mkDisplay {
  display_size : Size;
  display_flags : Z;
  caption : option string
}.

(** [pygame.RESIZABLE]. *)
Definition RESIZABLE : Z := 16.

(** What an anchor name is bound to: the name of an edge, or (for the
    ['..._target'] keys) an element already registered with the manager,
    named by its position there. *)
Inductive AnchorValue : Type :=
| Edge (name : string)
| Target (element : nat).

(** A [pygame_gui.elements.UIPanel] as the layout preset creates it. *)
Record UIPanel : Type := mkUIPanel {
  relative_rect : Rect;
  starting_layer : Z;
  panel_margins : option (list Z);
  anchors : gmap string AnchorValue
}.

(** [pygame_gui.UIManager]: its window resolution and the elements that
    were created with it, in creation order. *)
Record UIManager : Type := mkUIManager {
  window_resolution : Size;
  elements : list UIPanel
}.

Definition set_window_resolution (s : Size) (m : UIManager) : UIManager :=
  {| window_resolution := s; elements := elements m |}.

(** Creating an element with a manager registers it there; the result is
    the manager and the new element's position. *)
Definition register (p : UIPanel) (m : UIManager) : UIManager * nat :=
  ({| window_resolution := window_resolution m;
      elements := elements m ++ [p] |},
   length (elements m)).

End Pygame.

(** ** gui_app.py *)

Module GuiApp.
Import Pygame.

(** [IUpdateObject]: anything with an [update(time_delta)] method. *)
Class IUpdateObject (O : Type) : Type :=
  obj_update : float → O → O.

(** The calls the scaffold makes to its own overridable methods and to the
    toolkit, in order.  What the manager does inside [process_events],
    [update] and [draw_ui], and what is drawn, is the toolkit's business:
    these calls are recorded and change nothing else. *)
Inductive Call : Type :=
| clock_tick (framerate : Z)
| event_get
| call_on_shutdown
| call_handle_event (e : Event)
| manager_process_events (e : Event)
| manager_set_window_resolution (s : Size)
| manager_update (time_delta : float)
| call_update (time_delta : float)
| blit_background (s : Surface)
| manager_draw_ui
| display_update.

(** A call that hands a close event to [handle_event] or to the manager. *)
Definition about_close_event (c : Call) : Prop :=
  match c with
  | call_handle_event e | manager_process_events e => type e = QUIT
  | _ => False
  end.

(** What one pass of the loop receives from outside: the milliseconds
    [clock.tick] returns, the size pygame has given the display surface
    by the time the event queue is read, and the queued events. *)
Record Frame : Type := mkFrame {
  tick_ms : Z;
  window_size_now : Size;
  events : list Event
}.

Section Scaffold.
(** [U]: the attributes a subclass adds; [O]: the update objects. *)
Context {U O : Type} `{IUpdateObject O}.

Record t : Type := mk {
  _framerate : Z;
  title : option string;
  root_window_surface : Display;
  background_surface : Surface;
  _ui_manager : UIManager;
  is_running : bool;
  _update_objects : list O;
  attrs : U
}.

Definition with_root_window_surface (d : Display) (self : t) : t :=
  mk (_framerate self) (title self) d (background_surface self)
     (_ui_manager self) (is_running self) (_update_objects self) (attrs self).

Definition with_background_surface (s : Surface) (self : t) : t :=
  mk (_framerate self) (title self) (root_window_surface self) s
     (_ui_manager self) (is_running self) (_update_objects self) (attrs self).

Definition with_ui_manager (m : UIManager) (self : t) : t :=
  mk (_framerate self) (title self) (root_window_surface self)
     (background_surface self) m (is_running self) (_update_objects self)
     (attrs self).

Definition with_is_running (b : bool) (self : t) : t :=
  mk (_framerate self) (title self) (root_window_surface self)
     (background_surface self) (_ui_manager self) b (_update_objects self)
     (attrs self).

Definition with_update_objects (l : list O) (self : t) : t :=
  mk (_framerate self) (title self) (root_window_surface self)
     (background_surface self) (_ui_manager self) (is_running self) l
     (attrs self).

Definition with_attrs (u : U) (self : t) : t :=
  mk (_framerate self) (title self) (root_window_surface self)
     (background_surface self) (_ui_manager self) (is_running self)
     (_update_objects self) u.

(** Properties. *)
Definition size (self : t) : Size := display_size (root_window_surface self).
Definition ui_manager (self : t) : UIManager := _ui_manager self.
Definition framerate (self : t) : Z := _framerate self.

(** [pygame.Surface(size).convert()] filled with ['#303030']. *)
Definition background (size : Size) : Surface :=
  mkSurface size (Filled "#303030").

Record Args : Type := mkArgs {
  arg_window_size : Size;
  arg_framerate : Z;
  arg_title : option string;
  arg_resizeable : bool
}.

(** The defaults of the keyword parameters. *)
Definition args (window_size : Size) : Args :=
  mkArgs window_size 60 None true.

(** [subclass_attrs] is what the attributes of the subclass are while the
    base constructor runs.  [set_mode] is taken to open a window of the
    size it is asked for. *)
Definition __init__ (a : Args) (subclass_attrs : U) : t :=
  let caption :=
    match arg_title a with
    | Some s => if decide (s = "") then None else Some s
    | None => None
    end in
  let flags := 0 in
  let flags := if arg_resizeable a then Z.lor flags RESIZABLE else flags in
  let root_window_surface := mkDisplay (arg_window_size a) flags caption in
  let size := display_size root_window_surface in
  mk (arg_framerate a) (arg_title a) root_window_surface
     (background size) (mkUIManager size []) false [] subclass_attrs.

Definition setup (self : t) : t := self.

Definition add_update_object (update_object : O) (self : t) : t :=
  with_update_objects (_update_objects self ++ [update_object]) self.

Definition update (time_delta : float) (self : t) : t :=
  with_update_objects (obj_update time_delta <$> _update_objects self) self.

Definition handle_event (event : Event) (self : t) : bool * t :=
  (false, self).

Definition on_shutdown (self : t) : t := self.

(** The methods a subclass may override; [base] is [GuiApp]'s own. *)
Record Methods : Type := mkMethods {
  do_setup : t → t;
  do_update : float → t → t;
  do_handle_event : Event → t → bool * t;
  do_on_shutdown : t → t
}.

Definition base : Methods :=
  mkMethods setup update handle_event on_shutdown.

(** The application together with the calls made so far. *)
Record World : Type := mkWorld {
  app : t;
  trace : list Call
}.

Definition log (c : Call) (w : World) : World :=
  mkWorld (app w) (trace w ++ [c]).

Definition on_app (f : t → t) (w : World) : World :=
  mkWorld (f (app w)) (trace w).

(** [pygame.event.get()]: by now pygame has resized the display surface
    to the window. *)
Definition pump (fr : Frame) (self : t) : t :=
  let d := root_window_surface self in
  with_root_window_surface
    (mkDisplay (window_size_now fr) (display_flags d) (caption d)) self.

(** The body of [for event in pygame.event.get()]. *)
Definition dispatch (cls : Methods) (event : Event) (w : World) : World :=
  let w :=
    if decide (type event = QUIT) then
      let w := on_app (do_on_shutdown cls) (log call_on_shutdown w) in
      on_app (with_is_running false) w
    else if decide (type event = WINDOWRESIZED) then
      let w := on_app (λ self, with_background_surface (background (size self)) self) w in
      let w := log (manager_set_window_resolution (size (app w))) w in
      on_app (λ self, with_ui_manager
                        (set_window_resolution (size self) (ui_manager self)) self) w
    else
      on_app (λ self, snd (do_handle_event cls event self))
             (log (call_handle_event event) w) in
  if is_running (app w) then log (manager_process_events event) w else w.

(** [for event in ...: dispatch]. *)
Definition drain (cls : Methods) (evs : list Event) (w : World) : World :=
  foldl (λ w event, dispatch cls event w) w evs.

Definition _main_loop (cls : Methods) (fr : Frame) (w : World) : World :=
  let w := log (clock_tick (framerate (app w))) w in
  let time_delta := Py.truediv_float (Py.Int (tick_ms fr)) 1000 in
  let w := on_app (pump fr) (log event_get w) in
  let w := drain cls (events fr) w in
  if negb (is_running (app w)) then w
  else
    let w := log (manager_update time_delta) w in
    let w := on_app (do_update cls time_delta) (log (call_update time_delta) w) in
    let w := log (blit_background (background_surface (app w))) w in
    let w := log manager_draw_ui w in
    log display_update w.

(** [run] over the frames that are still to come: [Returned] when the
    call returns, [Looping] when the frames end with the loop going. *)
Inductive Outcome : Type :=
| Returned (w : World)
| Looping (w : World).

Fixpoint while_is_running (cls : Methods) (frames : list Frame) (w : World)
  : Outcome :=
  if is_running (app w) then
    match frames with
    | [] => Looping w
    | fr :: frames => while_is_running cls frames (_main_loop cls fr w)
    end
  else Returned w.

Definition run (cls : Methods) (frames : list Frame) (w : World) : Outcome :=
  if is_running (app w) then Returned w
  else while_is_running cls frames (on_app (with_is_running true) w).

(** The state in which the first event of a pass is dispatched, and the
    state after a number of passes. *)
Definition before_events (fr : Frame) (w : World) : World :=
  on_app (pump fr) (log event_get (log (clock_tick (framerate (app w))) w)).

Definition iterate (cls : Methods) (frames : list Frame) (w : World) : World :=
  foldl (λ w fr, _main_loop cls fr w) w frames.

(** The three sizes that have to agree. *)
Definition sizes_agree (self : t) : Prop :=
  get_size (background_surface self) = size self ∧
  window_resolution (ui_manager self) = size self.

(** An overriding method that leaves the window, the background and the
    manager's resolution alone. *)
Definition keeps_sizes (f : t → t) : Prop :=
  ∀ self,
    size (f self) = size self ∧
    get_size (background_surface (f self)) = get_size (background_surface self) ∧
    window_resolution (ui_manager (f self)) = window_resolution (ui_manager self).

Definition methods_keep_sizes (cls : Methods) : Prop :=
  keeps_sizes (do_setup cls) ∧
  (∀ time_delta, keeps_sizes (do_update cls time_delta)) ∧
  (∀ event, keeps_sizes (λ self, snd (do_handle_event cls event self))) ∧
  keeps_sizes (do_on_shutdown cls).

(** pygame queues a [WINDOWRESIZED] event when it resizes the display:
    in one pass, and in all of a list of passes that starts at [size0]. *)
Definition resize_announced (fr : Frame) (self : t) : Prop :=
  window_size_now fr = size self ∨
  ∃ event, event ∈ events fr ∧ type event = WINDOWRESIZED.

Fixpoint resizes_announced (frames : list Frame) (size0 : Size) : Prop :=
  match frames with
  | [] => True
  | fr :: frames =>
      (window_size_now fr = size0 ∨
       ∃ event, event ∈ events fr ∧ type event = WINDOWRESIZED) ∧
      resizes_announced frames (window_size_now fr)
  end.

Definition outcome_world (o : Outcome) : World :=
  match o with
  | Returned w | Looping w => w
  end.

(** The calls a step makes are appended to the trace. *)
Definition extends (w w' : World) : Prop := ∃ calls, trace w' = trace w ++ calls.

Definition emits (w w' : World) (calls : list Call) : Prop :=
  trace w' = trace w ++ calls.

End Scaffold.

Arguments t : clear implicits.
Arguments Methods : clear implicits.
Arguments World : clear implicits.
Arguments Outcome : clear implicits.

End GuiApp.

(** ** ThreePanelApp.py *)

Module ThreePanelApp.
Import Pygame.

(** The attributes [ThreePanelApp] adds to [GuiApp]; each is [None] until
    the constructor assigns it.  Panels are named by their position in the
    manager. *)
Record Attrs : Type := mkAttrs {
  _margins : option (option (list Z));
  _top_height : option Py.num;
  _bottom_height : option Py.num;
  _top_panel : option nat;
  _bottom_panel : option nat;
  _middle_panel : option nat
}.

Definition unassigned : Attrs := mkAttrs None None None None None None.

(** How the constructor ends: with the object, or with [raise Exception(msg)]
    and the object as far as it got. *)
Inductive Result (A : Type) : Type :=
| Returns (self : A)
| Raises (msg : string) (self : A).

Arguments Returns {A} self.
Arguments Raises {A} msg self.

Definition dict (l : list (string * AnchorValue)) : gmap string AnchorValue :=
  list_to_map l.

(** [window_height * h if heights_as_fractions else h]. *)
Definition resolve (heights_as_fractions : bool) (window_height h : Py.num)
  : Py.num :=
  if heights_as_fractions then Py.mul window_height h else h.

(** [window_height - _top_height - _bottom_height]. *)
Definition middle_height (heights_as_fractions : bool)
    (window_height top_height bottom_height : Py.num) : Py.num :=
  Py.sub (Py.sub window_height (resolve heights_as_fractions window_height top_height))
         (resolve heights_as_fractions window_height bottom_height).

(** The window height as the constructor reads it, and the three reasons
    for which the design notes have it refuse a layout. *)
Definition window_height (args : GuiApp.Args) : Py.num :=
  Py.Int (snd (GuiApp.arg_window_size args)).

Definition rejects_fractions (heights_as_fractions : bool) (top bottom : Py.num) : Prop :=
  heights_as_fractions = true ∧
  (Py.gt top (Py.Float 1) = true ∨ Py.gt bottom (Py.Float 1) = true ∨
   Py.gt (Py.add top bottom) (Py.Float 1) = true).

Definition rejects_pixels (heights_as_fractions : bool) (H top bottom : Py.num) : Prop :=
  heights_as_fractions = false ∧ Py.gt (Py.add top bottom) H = true.

Definition rejects_middle (heights_as_fractions : bool) (H top bottom : Py.num) : Prop :=
  Py.le (middle_height heights_as_fractions H top bottom) (Py.Int 0) = true.

Section Init.
Context {O : Type} `{GuiApp.IUpdateObject O}.

Definition App : Type := GuiApp.t Attrs O.

(** The default of [top_height] and of [bottom_height]. *)
Definition default_height : Py.num := Py.Int 100.

Definition __init__ (args : GuiApp.Args)
    (top_height bottom_height : Py.num) (heights_as_fractions : bool)
    (margins : option (list Z)) : Result App :=
  let self : App := GuiApp.__init__ args unassigned in
  if heights_as_fractions &&
     (Py.gt top_height (Py.Float 1) || Py.gt bottom_height (Py.Float 1)
      || Py.gt (Py.add top_height bottom_height) (Py.Float 1))
  then Raises "Panels will not fit. Total is > 100%." self
  else if negb heights_as_fractions &&
          Py.gt (Py.add top_height bottom_height)
                (Py.Int (snd (display_size (GuiApp.root_window_surface self))))
  then Raises "Panels will not fit. Total is > window height." self
  else
    let self :=
      GuiApp.with_attrs
        (mkAttrs (Some margins) (Some top_height) (Some bottom_height)
                 None None None) self in
    let window_height := Py.Int (snd (display_size (GuiApp.root_window_surface self))) in
    let window_width := Py.Int (fst (display_size (GuiApp.root_window_surface self))) in
    let _top_height' := resolve heights_as_fractions window_height top_height in
    let _bottom_height' := resolve heights_as_fractions window_height bottom_height in
    let _middle_height := Py.sub (Py.sub window_height _top_height') _bottom_height' in
    let layer := 1 in
    if Py.le _middle_height (Py.Int 0)
    then Raises "Panels will not fit. No room for middle panel." self
    else
      let '(m, top) :=
        register
          (mkUIPanel
             (mkRect (Py.Int 0) (Py.Int 0) window_width _top_height') layer margins
             (dict [("top", Edge "top"); ("left", Edge "left");
                    ("bottom", Edge "top"); ("right", Edge "right")]))
          (GuiApp.ui_manager self) in
      let '(m, bottom) :=
        register
          (mkUIPanel
             (mkRect (Py.Int 0) (Py.neg _bottom_height') window_width _bottom_height')
             layer margins
             (dict [("top", Edge "bottom"); ("left", Edge "left");
                    ("bottom", Edge "bottom"); ("right", Edge "right")]))
          m in
      let '(m, middle) :=
        register
          (mkUIPanel
             (mkRect (Py.Int 0) (Py.Int 0) window_width
                     (Py.sub window_height (Py.add _top_height' _bottom_height')))
             layer margins
             (dict [("top_target", Target top); ("bottom_target", Target bottom);
                    ("top", Edge "top"); ("left", Edge "left");
                    ("bottom", Edge "bottom"); ("right", Edge "right")]))
          m in
      Returns
        (GuiApp.with_attrs
           (mkAttrs (Some margins) (Some top_height) (Some bottom_height)
                    (Some top) (Some bottom) (Some middle))
           (GuiApp.with_ui_manager m self)).

(** Properties; a panel is looked up in the manager it was created with. *)
Definition panel (which : Attrs → option nat) (self : App) : option UIPanel :=
  i ← which (GuiApp.attrs self); elements (GuiApp.ui_manager self) !! i.

Definition top_panel (self : App) : option UIPanel := panel _top_panel self.
Definition middle_panel (self : App) : option UIPanel := panel _middle_panel self.
Definition bottom_panel (self : App) : option UIPanel := panel _bottom_panel self.

(** The heights of the top, bottom and middle panel, in pixels: the
    heights of their rectangles. *)
Definition panel_heights (self : App) : option (Z * Z * Z) :=
  t ← top_panel self; b ← bottom_panel self; m ← middle_panel self;
  top ← rect_height (relative_rect t);
  bottom ← rect_height (relative_rect b);
  middle ← rect_height (relative_rect m);
  Some (top, bottom, middle).

(** What the arguments make of the three heights: the resolved top and
    bottom height and the window height less their sum, as the constructor
    hands them to [pygame.Rect], each without its fraction. *)
Definition heights_in_pixels (heights_as_fractions : bool)
    (window_height top_height bottom_height : Py.num) : option (Z * Z * Z) :=
  let top := resolve heights_as_fractions window_height top_height in
  let bottom := resolve heights_as_fractions window_height bottom_height in
  t ← Py.trunc top; b ← Py.trunc bottom;
  m ← Py.trunc (Py.sub window_height (Py.add top bottom));
  Some (t, b, m).

End Init.

End ThreePanelApp.

(** ** ui_image_tiled.py *)

Module UIImageTiled.
Import Pygame.

(** Surfaces are objects: a surface is named by its position in the heap,
    and [blit] changes the heap. *)
Definition Ref : Type := nat.
Definition Heap : Type := list Surface.

Inductive exn : Type :=
| ValueError        (* [range] with a zero step *)
| AttributeError    (* a method called on [None] *)
| PygameError.      (* a surface of negative size *)

Inductive Res (A : Type) : Type :=
| Val (a : A) (h : Heap)
| Exn (e : exn) (h : Heap).

Arguments Val {A} a h.
Arguments Exn {A} e h.

Definition M (A : Type) : Type := Heap → Res A.

#[global] Instance M_ret : MRet M := λ A a h, Val a h.

#[global] Instance M_bind : MBind M := λ A B f m h,
  match m h with
  | Val a h' => f a h'
  | Exn e h' => Exn e h'
  end.

Definition raise {A : Type} (e : exn) : M A := λ h, Exn e h.

Definition alloc (s : Surface) : M Ref := λ h, Val (length h) (h ++ [s]).

Definition deref (r : Ref) : M Surface := λ h,
  match h !! r with
  | Some s => Val s h
  | None => Exn AttributeError h
  end.

Definition store (r : Ref) (s : Surface) : M unit := λ h, Val () (<[r := s]> h).

Fixpoint for_each {A : Type} (l : list A) (body : A → M unit) : M unit :=
  match l with
  | [] => mret ()
  | a :: l => body a ≫= λ _, for_each l body
  end.

(** [range(0, stop, step)]. *)
Definition range (stop step : Z) : M (list Z) :=
  match Py.range0 stop step with
  | Some l => mret l
  | None => raise ValueError
  end.

(** [pygame.Surface(size)]. *)
Definition Surface_new (size : Size) : M Ref :=
  if decide (fst size < 0 ∨ snd size < 0) then raise PygameError
  else alloc (mkSurface size Blank).

(** [dst.blit(src, pos)]: the pixels of [src] as they are now are drawn
    onto [dst]. *)
Definition blit (dst src : Ref) (pos : Z * Z) : M unit :=
  d ← deref dst;
  s ← deref src;
  store dst (mkSurface (get_size d) (Blit (pixels d) (pixels s) (get_size s) pos)).

(** [surface.convert_alpha()]: a new surface of the same size. *)
Definition convert_alpha (surface : option Ref) : M Ref :=
  match surface with
  | None => raise AttributeError
  | Some r => s ← deref r; alloc (mkSurface (get_size s) (ConvertAlpha (pixels s)))
  end.

(** [pygame_gui.core.utility.premul_alpha_surface]: the colours of the
    surface multiplied by its alpha, here in place.  Its argument is always
    the copy [convert_alpha] just made, which nothing else refers to. *)
Definition premul_alpha_surface (surface : Ref) : M (option Ref) :=
  s ← deref surface;
  store surface (mkSurface (get_size s) (PremulAlpha (pixels s)));;
  mret (Some surface).

(** [pygame.transform.smoothscale(surface, size)]: a new surface of the
    given size. *)
Definition smoothscale (surface : option Ref) (size : Size) : M Ref :=
  match surface with
  | None => raise AttributeError
  | Some r =>
      s ← deref r;
      if decide (fst size < 0 ∨ snd size < 0) then raise ValueError
      else alloc (mkSurface size (SmoothScale (pixels s) (get_size s) size))
  end.

(** The widget.  [rect_size] is [self.rect.size]; [image] and
    [_pre_clipped_image] are attributes of pygame_gui's [UIElement]. *)
Record t : Type := mk {
  rect_size : Size;
  _tile : option Ref;
  original_image : option Ref;
  image : option Ref;
  _pre_clipped_image : option Ref
}.

Definition with_rect_size (s : Size) (self : t) : t :=
  mk s (_tile self) (original_image self) (image self) (_pre_clipped_image self).

Definition with_tile (r : option Ref) (self : t) : t :=
  mk (rect_size self) r (original_image self) (image self) (_pre_clipped_image self).

Definition with_original_image (r : option Ref) (self : t) : t :=
  mk (rect_size self) (_tile self) r (image self) (_pre_clipped_image self).

(** [surface.copy()]: a new surface of the same size and pixels. *)
Definition copy (surface : Ref) : M Ref :=
  s ← deref surface; alloc s.

(** [UIElement.set_image], for an element whose image is not clipped: the
    image of the element is a copy of the surface it is given, and no
    pre-clipped image is kept. *)
Definition set_image (new_image : option Ref) (self : t) : M t :=
  match new_image with
  | Some r =>
      image ← copy r;
      mret (mk (rect_size self) (_tile self) (original_image self) (Some image) None)
  | None =>
      mret (mk (rect_size self) (_tile self) (original_image self) None None)
  end.

Definition create_tiled_surface (self : t) : M (option Ref) :=
  match _tile self with
  | None => mret None
  | Some tile_ref =>
      tile ← deref tile_ref;
      let '(panel_width, panel_height) := rect_size self in
      let '(tile_width, tile_height) := (get_height tile, get_width tile) in
      if decide (panel_width = tile_width ∧ panel_height = tile_height)
      then mret (Some tile_ref)
      else
        new_surface ← Surface_new (panel_width, panel_height);
        ys ← range panel_height tile_height;
        for_each ys (λ y,
          xs ← range panel_width tile_width;
          for_each xs (λ x, blit new_surface tile_ref (x, y)));;
        mret (Some new_surface)
  end.

(** [relative_rect_size] is the size of [relative_rect], which the base
    class makes the size of [self.rect]; what else the base class keeps
    (identifiers, the manager, the container) plays no part here. *)
Definition __init__ (relative_rect_size : Size) (image_surface : option Ref) : M t :=
  let self := mk relative_rect_size None None None None in
  let self := with_original_image None self in
  let self := with_tile image_surface self in
  image_surface ← create_tiled_surface self;
  converted ← convert_alpha image_surface;
  image_surface ← premul_alpha_surface converted;
  s ← (match image_surface with
       | Some r => deref r
       | None => raise AttributeError
       end);
  if decide (get_width s ≠ fst (rect_size self) ∨ get_height s ≠ snd (rect_size self))
  then
    let self := with_original_image image_surface self in
    scaled ← smoothscale (original_image self) (rect_size self);
    set_image (Some scaled) self
  else
    set_image image_surface self.

(** [dimensions] as the base class stores them in [self.rect]. *)
Definition set_dimensions (dimensions : Size) (self : t) : M t :=
  let self := with_rect_size dimensions self in
  img ← (match image self with
         | Some r => deref r
         | None => raise AttributeError
         end);
  if decide (rect_size self ≠ get_size img) then
    tiled ← create_tiled_surface self;
    let self := with_original_image tiled self in
    converted ← convert_alpha (original_image self);
    premul ← premul_alpha_surface converted;
    let self := with_original_image premul self in
    let self :=
      match original_image self with
      | None =>
          match _pre_clipped_image self with
          | Some _ => with_original_image (_pre_clipped_image self) self
          | None => with_original_image (image self) self
          end
      | Some _ => self
      end in
    set_image (original_image self) self
  else mret self.

(** The surface a widget shows, read from the heap. *)
Definition shown (self : t) (h : Heap) : option Surface :=
  r ← image self; h !! r.

(** One row of tiles, and all rows, drawn onto [p]. *)
Definition paint_row (tile : Surface) (xs : list Z) (p : Pixels) (y : Z) : Pixels :=
  foldl (λ p x, Blit p (pixels tile) (get_size tile) (x, y)) p xs.

Definition paint (tile : Surface) (xs ys : list Z) (p : Pixels) : Pixels :=
  foldl (paint_row tile xs) p ys.

(** The offsets [(x, y)] for [y] in [ys], and for each of them [x] in [xs]. *)
Definition grid (xs ys : list Z) : list (Z * Z) :=
  y ← ys; x ← xs; [(x, y)].

(** The offsets of the design notes: [x] steps by the tile's width below
    the target's width, [y] by the tile's height below the target's
    height. *)
Definition claimed_offsets (tile : Surface) (target : Size) : option (list (Z * Z)) :=
  xs ← Py.range0 (fst target) (get_width tile);
  ys ← Py.range0 (snd target) (get_height tile);
  Some (grid xs ys).

(** What a widget shows, and its size, once an operation has returned. *)
Definition shown_in (result : Res t) : option Surface :=
  match result with
  | Val self h => shown self h
  | Exn _ _ => None
  end.

Definition size_in (result : Res t) : option Size :=
  match result with
  | Val self _ => Some (rect_size self)
  | Exn _ _ => None
  end.

(** What the widget shows after tiling: the composed pixels, converted and
    premultiplied. *)
Definition finished (size : Size) (p : Pixels) : Surface :=
  mkSurface size (PremulAlpha (ConvertAlpha p)).

(** What [create_tiled_surface] returns when it replicates the tile: a new
    surface [s] of the target's size, at the end of the heap, onto which the
    tile has been drawn row by row at the offsets that step by the tile's
    height along x, below the target's width, and by the tile's width along
    y, below the target's height. *)
Definition replicated (h h' : Heap) (result : option Ref) (tile : Surface)
    (W H : Z) : Prop :=
  ∃ xs ys s,
    Py.range0 W (get_height tile) = Some xs ∧
    Py.range0 H (get_width tile) = Some ys ∧
    result = Some (length h) ∧
    h' !! length h = Some s ∧ get_size s = (W, H) ∧
    blit_offsets (pixels s) = grid xs ys ∧
    ∀ x y, (x, y) ∈ blit_offsets (pixels s) ↔
      (∃ i, 0 ≤ i ∧ x = i * get_height tile ∧ x < W) ∧
      (∃ j, 0 ≤ j ∧ y = j * get_width tile ∧ y < H).

End UIImageTiled.

(** ** The calls of a pass *)

Module GuiAppTrace.
Import Pygame GuiApp.

(** The events a list of calls hands to [handle_event], and those it hands
    to the manager's [process_events], in the order of the calls. *)
Definition handled (calls : list Call) : list Event :=
  omap (λ c, match c with call_handle_event e => Some e | _ => None end) calls.

Definition forwarded (calls : list Call) : list Event :=
  omap (λ c, match c with manager_process_events e => Some e | _ => None end) calls.

(** An event that is neither close nor resize. *)
Definition is_other (e : Event) : Prop :=
  type e ≠ QUIT ∧ type e ≠ WINDOWRESIZED.

(** The events of a queue before its first close event, and whether it has
    one. *)
Fixpoint before_quit (evs : list Event) : list Event :=
  match evs with
  | [] => []
  | e :: evs => if decide (type e = QUIT) then [] else e :: before_quit evs
  end.

Definition has_quit (evs : list Event) : bool :=
  bool_decide (Exists (λ e, type e = QUIT) evs).

(** The position of the first frame whose queue has a close event. *)
Fixpoint first_quit (frames : list Frame) : option nat :=
  match frames with
  | [] => None
  | fr :: frames => if has_quit (events fr) then Some 0%nat else S <$> first_quit frames
  end.

(** A call that is not in a list of calls of other kinds. *)
Ltac not_among :=
  let Hin := fresh in
  intros Hin;
  repeat (apply elem_of_cons in Hin as [Hin|Hin]; [discriminate Hin|]);
  by apply elem_of_nil in Hin.

Section Calls.
Context {U O : Type} {upd : IUpdateObject O}.

(** The calls made between two states of one run. *)
Definition calls_between (w w' : World U O) : list Call :=
  drop (length (trace w)) (trace w').

(** Overriding methods that leave [is_running] as it is. *)
Definition handler_keeps_running (cls : Methods U O) : Prop :=
  ∀ e self, is_running (snd (do_handle_event cls e self)) = is_running self.

Definition update_keeps_running (cls : Methods U O) : Prop :=
  ∀ time_delta self, is_running (do_update cls time_delta self) = is_running self.

End Calls.

End GuiAppTrace.

(** ** The heap of surfaces *)

Module UIImageTiledHeap.
Import Pygame UIImageTiled.

(** The heap an operation leaves, whether it returns or raises. *)
Definition heap_of {A : Type} (result : Res A) : Heap :=
  match result with
  | Val _ h | Exn _ h => h
  end.

(** Run on a heap of at least [n] surfaces, [m] leaves the first [n] as
    they are and removes none; what it returns satisfies [Q]. *)
Definition keeps {A : Type} (n : nat) (m : M A) (Q : A → Prop) : Prop :=
  ∀ h, (n ≤ length h)%nat →
    take n (heap_of (m h)) = take n h ∧
    (length h ≤ length (heap_of (m h)))%nat ∧
    ∀ a h', m h = Val a h' → Q a.

(** A blit of a tile of size [tile_size] at [pos] paints the pixel
    [(px, py)]. *)
Definition paints (tile_size : Size) (pos : Z * Z) (px py : Z) : Prop :=
  fst pos ≤ px < fst pos + fst tile_size ∧
  snd pos ≤ py < snd pos + snd tile_size.

(** Some blit of the tile onto [s] paints the pixel. *)
Definition covered (tile s : Surface) (px py : Z) : Prop :=
  ∃ pos, pos ∈ blit_offsets (pixels s) ∧ paints (get_size tile) pos px py.

End UIImageTiledHeap.

(** ** Sample values *)

Module Examples.
Import Pygame.

(** An application without update objects. *)
#[global] Instance no_update : GuiApp.IUpdateObject unit := λ _ u, u.

(** The floats Python reads [0.10] and [0.05] as. *)
Definition tenth : float := 0x1.999999999999ap-4.

(** A window of 640 by 480 pixels, before and after [run] has started. *)
Definition fresh : GuiApp.World unit unit :=
  GuiApp.mkWorld (GuiApp.__init__ (GuiApp.args (640, 480)) ()) [].
Definition started : GuiApp.World unit unit :=
  GuiApp.on_app (GuiApp.with_is_running true) fresh.

Definition click : Event := mkEvent (OTHER 1025) 0.
Definition close : Event := mkEvent QUIT 1.
Definition key : Event := mkEvent (OTHER 768) 2.
Definition resized : Event := mkEvent WINDOWRESIZED 3.

Definition frame_idle : GuiApp.Frame := GuiApp.mkFrame 16 (640, 480) [].
Definition frame_close : GuiApp.Frame := GuiApp.mkFrame 16 (640, 480) [click; close; key].
Definition frame_resize : GuiApp.Frame := GuiApp.mkFrame 17 (800, 600) [click; resized].

(** A tile that is not square, and a widget of that tile before its image
    is composed. *)
Definition tile23 : Surface := mkSurface (2, 3) (Loaded "tile").

Definition blank_widget (size : Size) : UIImageTiled.t :=
  UIImageTiled.mk size (Some 0%nat) None None None.

End Examples.

(** * Properties *)

Module PyFacts.



(** [range(0, stop, step)] with a positive step: the multiples of the step
    from 0 on that are below [stop]. *)
Lemma range0_elem stop step l x :
  0 < step → Py.range0 stop step = Some l →
  x ∈ l ↔ ∃ k, 0 ≤ k ∧ x = k * step ∧ x < stop.
Proof.
  intros Hstep. unfold Py.range0.
  rewrite decide_False by lia. rewrite decide_True by lia.
  intros [= <-]. rewrite list_elem_of_fmap.
  set (q := (stop + step - 1) / step).
  assert (Hq1 : q * step ≤ stop + step - 1).
  { unfold q. rewrite Z.mul_comm. apply Z.mul_div_le. lia. }
  assert (Hq2 : stop + step - 1 < (q + 1) * step).
  { unfold q. pose proof (Z.mod_pos_bound (stop + step - 1) step Hstep).
    pose proof (Z.div_mod (stop + step - 1) step ltac:(lia)). nia. }
  split.
  - intros (k & -> & Hk). apply elem_of_seq in Hk.
    exists (Z.of_nat k). split; [lia|]. split; [done|]. nia.
  - intros (k & Hk & -> & Hlt). exists (Z.to_nat k).
    split; [by rewrite Z2Nat.id|]. apply elem_of_seq. nia.
Qed.

(** [range] with a step that is not zero. *)
Lemma range0_Some stop step :
  step ≠ 0 → ∃ l, Py.range0 stop step = Some l.
Proof. intros Hs. unfold Py.range0. rewrite decide_False by done. by eexists. Qed.

(** *** Whole numbers in binary64 *)


















(** Sums and differences of whole numbers, as Python computes them. *)
Lemma whole_to_float x z : Py.whole x z → Py.to_float x = Py.float_of_int z.
Proof. by intros [->| ->]. Qed.




End PyFacts.

Module GuiAppFacts.
Import Pygame GuiApp Examples.

Section WithClass.
Context {U O : Type} `{IUpdateObject O}.
Implicit Types (w : World U O) (cls : Methods U O) (self : t U O).

Lemma drain_cons cls e evs w :
  drain cls (e :: evs) w = drain cls evs (dispatch cls e w).
Proof. reflexivity. Qed.

Lemma drain_app cls evs1 evs2 w :
  drain cls (evs1 ++ evs2) w = drain cls evs2 (drain cls evs1 w).
Proof. unfold drain. apply foldl_app. Qed.

Lemma iterate_snoc cls frames fr w :
  iterate cls (frames ++ [fr]) w = _main_loop cls fr (iterate cls frames w).
Proof. unfold iterate. rewrite foldl_app. reflexivity. Qed.

(** What [dispatch] does with a close event. *)
Lemma dispatch_quit cls e w :
  type e = QUIT →
  dispatch cls e w =
    mkWorld (with_is_running false (do_on_shutdown cls (app w)))
            (trace w ++ [call_on_shutdown]).
Proof.
  intros Hq. unfold dispatch. rewrite decide_True by done. reflexivity.
Qed.

(** What [dispatch] does with an event that is neither close nor resize. *)
Lemma dispatch_other cls e w :
  type e ≠ QUIT → type e ≠ WINDOWRESIZED →
  dispatch cls e w =
    let handled := snd (do_handle_event cls e (app w)) in
    mkWorld handled
      (trace w ++ call_handle_event e ::
         if is_running handled then [manager_process_events e] else []).
Proof.
  intros Hq Hr. unfold dispatch.
  rewrite decide_False by done. rewrite decide_False by done.
  cbn. destruct (is_running _); cbn; [|reflexivity].
  unfold log; cbn. by rewrite <- app_assoc.
Qed.

(** What [dispatch] does with a resize event. *)
Lemma dispatch_resized cls e w :
  type e = WINDOWRESIZED →
  dispatch cls e w =
    let self := with_background_surface (background (size (app w))) (app w) in
    let self := with_ui_manager (set_window_resolution (size self) (ui_manager self)) self in
    mkWorld self
      (trace w ++ manager_set_window_resolution (size (app w)) ::
         if is_running (app w) then [manager_process_events e] else []).
Proof.
  intros Hr. unfold dispatch.
  rewrite decide_False by (rewrite Hr; done). rewrite decide_True by done.
  cbn. destruct (is_running _); cbn; [|reflexivity].
  unfold log; cbn. by rewrite <- app_assoc.
Qed.

Lemma extends_refl w : extends w w.
Proof. exists []. by rewrite app_nil_r. Qed.

Lemma extends_trans w1 w2 w3 : extends w1 w2 → extends w2 w3 → extends w1 w3.
Proof. intros [c1 H1] [c2 H2]. exists (c1 ++ c2). by rewrite H2, H1, app_assoc. Qed.

Lemma extends_log c w : extends w (log c w).
Proof. by exists [c]. Qed.

Lemma extends_on_app f w : extends w (on_app f w).
Proof. exists []. cbn. by rewrite app_nil_r. Qed.

Lemma dispatch_extends cls e w : extends w (dispatch cls e w).
Proof.
  destruct (decide (type e = QUIT)) as [Hq|Hq].
  { rewrite dispatch_quit by done. by eexists. }
  destruct (decide (type e = WINDOWRESIZED)) as [Hr|Hr].
  { rewrite dispatch_resized by done. by eexists. }
  rewrite dispatch_other by done. by eexists.
Qed.

Lemma drain_extends cls evs w : extends w (drain cls evs w).
Proof.
  revert w. induction evs as [|e evs IH]; intros w; [apply extends_refl|].
  eapply extends_trans; [apply (dispatch_extends cls e)|apply IH].
Qed.

Lemma _main_loop_unfold cls fr w :
  let w' := drain cls (events fr) (before_events fr w) in
  _main_loop cls fr w =
    if negb (is_running (app w')) then w'
    else
      let time_delta := Py.truediv_float (Py.Int (tick_ms fr)) 1000 in
      let w' := log (manager_update time_delta) w' in
      let w' := on_app (do_update cls time_delta) (log (call_update time_delta) w') in
      let w' := log (blit_background (background_surface (app w'))) w' in
      log display_update (log manager_draw_ui w').
Proof. reflexivity. Qed.

Lemma after_drain_extends cls fr w :
  extends (drain cls (events fr) (before_events fr w)) (_main_loop cls fr w).
Proof.
  rewrite _main_loop_unfold. cbv zeta.
  destruct (negb _); [apply extends_refl|].
  repeat (eapply extends_trans; [|first [apply extends_log|apply extends_on_app]]).
  apply extends_refl.
Qed.

Lemma emits_trans w1 w2 w3 c1 c2 :
  emits w1 w2 c1 → emits w2 w3 c2 → emits w1 w3 (c1 ++ c2).
Proof. unfold emits. intros -> ->. by rewrite app_assoc. Qed.

Lemma dispatch_spares_close cls e w :
  ∃ calls, emits w (dispatch cls e w) calls ∧ Forall (λ c, ¬ about_close_event c) calls.
Proof.
  destruct (decide (type e = QUIT)) as [Hq|Hq].
  { rewrite dispatch_quit by done. eexists; split; [reflexivity|].
    repeat constructor. cbn. tauto. }
  destruct (decide (type e = WINDOWRESIZED)) as [Hr|Hr].
  { rewrite dispatch_resized by done. eexists; split; [reflexivity|].
    destruct (is_running _); repeat constructor; cbn; tauto. }
  rewrite dispatch_other by done. eexists; split; [reflexivity|].
  cbv zeta. destruct (is_running _); repeat constructor; cbn; tauto.
Qed.

Lemma drain_spares_close cls evs w :
  ∃ calls, emits w (drain cls evs w) calls ∧ Forall (λ c, ¬ about_close_event c) calls.
Proof.
  revert w. induction evs as [|e evs IH]; intros w.
  { exists []. split; [unfold emits; cbn; by rewrite app_nil_r|constructor]. }
  destruct (dispatch_spares_close cls e w) as (c1 & H1 & F1).
  destruct (IH (dispatch cls e w)) as (c2 & H2 & F2).
  exists (c1 ++ c2). split; [by eapply emits_trans|by apply Forall_app].
Qed.

Lemma _main_loop_spares_close cls fr w :
  ∃ calls, emits w (_main_loop cls fr w) calls ∧ Forall (λ c, ¬ about_close_event c) calls.
Proof.
  rewrite _main_loop_unfold. cbv zeta.
  destruct (drain_spares_close cls (events fr) (before_events fr w)) as (c & Hc & Fc).
  set (w' := drain cls (events fr) (before_events fr w)) in *.
  unfold emits in Hc. cbn in Hc.
  destruct (negb _).
  - exists ([clock_tick (framerate (app w)); event_get] ++ c). split.
    + unfold emits. rewrite Hc. by rewrite <- !app_assoc.
    + apply Forall_app. split; [repeat constructor; cbn; tauto|done].
  - eexists ([clock_tick (framerate (app w)); event_get] ++ c ++ [_; _; _; _; _]). split.
    + unfold emits, log, on_app. cbn. rewrite Hc. by rewrite <- !app_assoc.
    + apply Forall_app. split; [repeat constructor; cbn; tauto|].
      apply Forall_app. split; [done|]. repeat constructor; cbn; tauto.
Qed.

(** C7.  In every pass of the main loop, whatever the overriding methods
    are: an event of the queue is dispatched in the state the events before
    it have left, and the calls it causes become part of the calls of the
    pass.  For a close event these are the call of [on_shutdown] and nothing
    else, and [is_running] is cleared afterwards; so the event reaches
    neither [handle_event] nor the manager, and no call of the pass hands a
    close event to either.  An event that is neither close nor resize is
    first handed to [handle_event] and then, exactly when [is_running] is
    still set after that, to the manager's [process_events]. *)
Theorem main_loop_close_and_other_events cls fr w pre e post :
  events fr = pre ++ e :: post →
  let before := drain cls pre (before_events fr w) in
  let after := dispatch cls e before in
  (extends w before ∧ extends after (_main_loop cls fr w)) ∧
  (type e = QUIT →
     trace after = trace before ++ [call_on_shutdown] ∧
     app after = with_is_running false (do_on_shutdown cls (app before)) ∧
     is_running (app after) = false) ∧
  (type e ≠ QUIT → type e ≠ WINDOWRESIZED →
     let handled := snd (do_handle_event cls e (app before)) in
     app after = handled ∧
     trace after = trace before ++ call_handle_event e ::
       (if is_running handled then [manager_process_events e] else [])) ∧
  (∀ calls q, trace (_main_loop cls fr w) = trace w ++ calls → type q = QUIT →
     (call_handle_event q ∉ calls) ∧ (manager_process_events q ∉ calls)).
Proof.
  intros Hev before after. split; [split|split; [|split]].
  - eapply extends_trans; [|apply drain_extends].
    unfold before_events.
    eapply extends_trans; [apply extends_log|].
    eapply extends_trans; [apply extends_log|apply extends_on_app].
  - eapply extends_trans; [|apply after_drain_extends].
    rewrite Hev. replace (pre ++ e :: post) with ((pre ++ [e]) ++ post)
      by (by rewrite <- app_assoc).
    rewrite !drain_app. apply drain_extends.
  - intros Hq. unfold after. by rewrite dispatch_quit.
  - intros Hq Hr. unfold after. by rewrite dispatch_other.
  - intros calls q Hcalls Hq.
    destruct (_main_loop_spares_close cls fr w) as (c & Hc & Fc).
    unfold emits in Hc. rewrite Hcalls in Hc. apply app_inv_head in Hc. subst c.
    rewrite Forall_forall in Fc.
    split; intros Hin; by apply (Fc _ Hin).
Qed.

(** *** The three sizes *)

Lemma __init___sizes_agree (a : Args) (u : U) : sizes_agree (__init__ (O:=O) a u).
Proof. by split. Qed.

Lemma keeps_sizes_agree (f : t U O → t U O) self :
  keeps_sizes f → sizes_agree self → sizes_agree (f self).
Proof.
  intros Hf [Hb Hm]. destruct (Hf self) as (E1 & E2 & E3).
  split; congruence.
Qed.

Lemma dispatch_size cls e w :
  methods_keep_sizes cls → size (app (dispatch cls e w)) = size (app w).
Proof.
  intros (_ & _ & Hh & Hs).
  destruct (decide (type e = QUIT)) as [Hq|Hq].
  { rewrite dispatch_quit by done. cbn. apply Hs. }
  destruct (decide (type e = WINDOWRESIZED)) as [Hr|Hr].
  { by rewrite dispatch_resized. }
  rewrite dispatch_other by done. cbn. apply (Hh e).
Qed.

Lemma dispatch_sizes_agree cls e w :
  methods_keep_sizes cls → sizes_agree (app w) → sizes_agree (app (dispatch cls e w)).
Proof.
  intros (_ & _ & Hh & Hs) Hw.
  destruct (decide (type e = QUIT)) as [Hq|Hq].
  { rewrite dispatch_quit by done.
    exact (keeps_sizes_agree _ _ Hs Hw). }
  destruct (decide (type e = WINDOWRESIZED)) as [Hr|Hr].
  { by rewrite dispatch_resized. }
  rewrite dispatch_other by done.
  exact (keeps_sizes_agree _ _ (Hh e) Hw).
Qed.

Lemma dispatch_resized_sizes_agree cls e w :
  type e = WINDOWRESIZED → sizes_agree (app (dispatch cls e w)).
Proof. intros Hr. by rewrite dispatch_resized. Qed.

Lemma drain_size cls evs w :
  methods_keep_sizes cls → size (app (drain cls evs w)) = size (app w).
Proof.
  intros Hk. revert w. induction evs as [|e evs IH]; intros w; [done|].
  rewrite drain_cons, IH. by apply dispatch_size.
Qed.

Lemma drain_sizes_agree cls evs w :
  methods_keep_sizes cls → sizes_agree (app w) → sizes_agree (app (drain cls evs w)).
Proof.
  intros Hk. revert w. induction evs as [|e evs IH]; intros w Hw; [done|].
  rewrite drain_cons. apply IH. by apply dispatch_sizes_agree.
Qed.

Lemma drain_resized_sizes_agree cls evs w e :
  methods_keep_sizes cls → e ∈ evs → type e = WINDOWRESIZED →
  sizes_agree (app (drain cls evs w)).
Proof.
  intros Hk Hin Hr. apply list_elem_of_split in Hin as (pre & post & ->).
  rewrite drain_app, drain_cons. apply drain_sizes_agree; [done|].
  by apply dispatch_resized_sizes_agree.
Qed.

Lemma _main_loop_app cls fr w :
  let w' := drain cls (events fr) (before_events fr w) in
  app (_main_loop cls fr w) =
    if is_running (app w')
    then do_update cls (Py.truediv_float (Py.Int (tick_ms fr)) 1000) (app w')
    else app w'.
Proof. rewrite _main_loop_unfold. cbv zeta. by destruct (is_running _). Qed.

Lemma _main_loop_sizes_agree cls fr w :
  methods_keep_sizes cls → sizes_agree (app w) → resize_announced fr (app w) →
  sizes_agree (app (_main_loop cls fr w)) ∧
  size (app (_main_loop cls fr w)) = window_size_now fr.
Proof.
  intros Hk Hw Hres.
  assert (Hsz : size (app (drain cls (events fr) (before_events fr w)))
                = window_size_now fr) by (by rewrite drain_size).
  assert (Hd : sizes_agree (app (drain cls (events fr) (before_events fr w)))).
  { destruct Hres as [Hsame|(e & Hin & Hr)].
    - apply drain_sizes_agree; [done|]. destruct Hw as [Hb Hm].
      unfold sizes_agree, before_events, pump, size in *. cbn in *.
      rewrite Hsame. by split.
    - by eapply drain_resized_sizes_agree. }
  rewrite _main_loop_app. cbv zeta. destruct (is_running _); [|done].
  destruct Hk as (_ & Hu & _).
  split; [by apply keeps_sizes_agree|].
  destruct (Hu (Py.truediv_float (Py.Int (tick_ms fr)) 1000)
               (app (drain cls (events fr) (before_events fr w)))) as (E & _).
  congruence.
Qed.

Lemma base_keeps_sizes : methods_keep_sizes (U:=U) (O:=O) base.
Proof. by repeat split. Qed.

(** C8.  The background surface has the size of the root window surface,
    and so has the resolution of the widget manager: after construction,
    and after every pass of the main loop that starts with the three in
    agreement, also one that handles a resize event.  The overriding
    methods are taken to leave the three sizes alone, as those of [GuiApp]
    do and as [add_update_object] does, and pygame to queue a resize event
    whenever it has resized the display surface. *)
Theorem sizes_agree_invariant :
  (∀ (a : Args) (u : U), sizes_agree (__init__ (O:=O) a u)) ∧
  (∀ cls fr w,
     methods_keep_sizes cls → sizes_agree (app w) → resize_announced fr (app w) →
     sizes_agree (app (_main_loop cls fr w)) ∧
     size (app (_main_loop cls fr w)) = window_size_now fr) ∧
  methods_keep_sizes (U:=U) (O:=O) base ∧
  (∀ o : O, keeps_sizes (U:=U) (add_update_object o)).
Proof.
  split; [apply __init___sizes_agree|]. split; [apply _main_loop_sizes_agree|].
  split; [apply base_keeps_sizes|]. by intros o self.
Qed.

(** *** [run] *)

Lemma while_is_running_sizes_agree cls frames w :
  methods_keep_sizes cls → sizes_agree (app w) →
  resizes_announced frames (size (app w)) →
  sizes_agree (app (outcome_world (while_is_running cls frames w))).
Proof.
  intros Hk. revert w. induction frames as [|fr frames IH]; intros w Hw Hres.
  { cbn. by destruct (is_running (app w)). }
  cbn [while_is_running]. destruct (is_running (app w)); [|done].
  destruct Hres as [Hfr Hres].
  destruct (_main_loop_sizes_agree cls fr w Hk Hw Hfr) as [Hw' Hsz].
  apply IH; [done|]. by rewrite Hsz.
Qed.

(** X6.  The three sizes agree whenever [run] returns, and also while it
    loops: with overriding methods that leave the sizes alone, from a state
    in which they agree, over frames in which every resize of the window is
    announced by a resize event. *)
Lemma run_sizes_agree cls frames w :
  methods_keep_sizes cls → sizes_agree (app w) →
  resizes_announced frames (size (app w)) →
  sizes_agree (app (outcome_world (run cls frames w))).
Proof.
  intros Hk Hw Hres. unfold run. destruct (is_running (app w)); [done|].
  by apply while_is_running_sizes_agree.
Qed.

Lemma while_is_running_stopped cls frames w :
  is_running (app w) = false → while_is_running cls frames w = Returned w.
Proof. intros Hr. destruct frames; cbn; by rewrite Hr. Qed.

Lemma while_is_running_returns cls frames w n :
  (n ≤ length frames)%nat →
  (∀ k, (k < n)%nat → is_running (app (iterate cls (take k frames) w)) = true) →
  is_running (app (iterate cls (take n frames) w)) = false →
  while_is_running cls frames w = Returned (iterate cls (take n frames) w).
Proof.
  revert frames w. induction n as [|n IH]; intros frames w Hn Hrun Hstop.
  { rewrite take_0 in *. by apply while_is_running_stopped. }
  destruct frames as [|fr frames]; [cbn in Hn; lia|].
  pose proof (Hrun 0%nat ltac:(lia)) as H0. cbn in H0.
  cbn [while_is_running]. rewrite H0.
  apply IH.
  - cbn in Hn. lia.
  - intros k Hk. exact (Hrun (S k) ltac:(lia)).
  - exact Hstop.
Qed.

Lemma while_is_running_loops cls frames w :
  (∀ k, (k ≤ length frames)%nat →
        is_running (app (iterate cls (take k frames) w)) = true) →
  while_is_running cls frames w = Looping (iterate cls frames w).
Proof.
  revert w. induction frames as [|fr frames IH]; intros w Hrun.
  { pose proof (Hrun 0%nat ltac:(cbn; lia)) as H0. cbn in H0. cbn. by rewrite H0. }
  pose proof (Hrun 0%nat ltac:(cbn; lia)) as H0. cbn in H0.
  cbn [while_is_running]. rewrite H0.
  apply IH. intros k Hk. exact (Hrun (S k) ltac:(cbn; lia)).
Qed.

Lemma while_is_running_returned cls frames w w' :
  while_is_running cls frames w = Returned w' →
  ∃ n, (n ≤ length frames)%nat ∧ w' = iterate cls (take n frames) w ∧
       is_running (app w') = false ∧
       ∀ k, (k < n)%nat → is_running (app (iterate cls (take k frames) w)) = true.
Proof.
  revert w. induction frames as [|fr frames IH]; intros w Hw.
  - cbn in Hw. destruct (is_running (app w)) eqn:E; [done|].
    injection Hw as <-. exists 0%nat. repeat split; [done..|]. intros; lia.
  - cbn in Hw. destruct (is_running (app w)) eqn:E.
    + destruct (IH _ Hw) as (n & Hn & -> & Hstop & Hrun).
      exists (S n). repeat split; [cbn; lia|done|].
      intros [|k] Hk; [done|]. apply Hrun. lia.
    + injection Hw as <-. exists 0%nat. repeat split; [cbn; lia|done|]. intros; lia.
Qed.

(** C10.  Called while [is_running] is set, [run] returns at once: no
    pass of the loop, the application and the calls made so far as they
    were.  Otherwise it sets [is_running] and goes through the main loop
    until a pass leaves [is_running] cleared: if that is the [n]th pass it
    returns the state after exactly [n] passes, if there is none among the
    frames it is still looping after all of them, and whenever it returns
    it does so after at least one pass, the first to clear the flag. *)
Theorem run_behaviour cls frames w :
  (is_running (app w) = true → run cls frames w = Returned w) ∧
  (is_running (app w) = false →
     let started := on_app (with_is_running true) w in
     (∀ n, (n ≤ length frames)%nat →
        (∀ k, (k < n)%nat →
           is_running (app (iterate cls (take k frames) started)) = true) →
        is_running (app (iterate cls (take n frames) started)) = false →
        run cls frames w = Returned (iterate cls (take n frames) started)) ∧
     ((∀ k, (k ≤ length frames)%nat →
         is_running (app (iterate cls (take k frames) started)) = true) →
      run cls frames w = Looping (iterate cls frames started)) ∧
     (∀ w', run cls frames w = Returned w' →
        ∃ n, (1 ≤ n ≤ length frames)%nat ∧
             w' = iterate cls (take n frames) started ∧
             is_running (app w') = false ∧
             ∀ k, (k < n)%nat →
               is_running (app (iterate cls (take k frames) started)) = true)).
Proof.
  split.
  - intros Hr. unfold run. by rewrite Hr.
  - intros Hr started. unfold run. rewrite Hr. fold started. repeat split.
    + intros n. apply while_is_running_returns.
    + apply while_is_running_loops.
    + intros w' Hw'. apply while_is_running_returned in Hw' as (n & Hn & -> & Hstop & Hrun).
      exists n. repeat split; try done.
      destruct n; [|lia]. by rewrite take_0 in Hstop.
Qed.

End WithClass.

Lemma main_loop_close_and_other_events_witness :
  (events frame_close = [click] ++ close :: [key] ∧ type close = QUIT ∧
   let before := drain base [click] (before_events frame_close started) in
   let after := dispatch base close before in
   trace after = trace before ++ [call_on_shutdown] ∧
   app after = with_is_running false (do_on_shutdown base (app before)) ∧
   is_running (app after) = false) ∧
  (events frame_close = [click; close] ++ key :: [] ∧
   type key ≠ QUIT ∧ type key ≠ WINDOWRESIZED ∧
   let before := drain base [click; close] (before_events frame_close started) in
   let after := dispatch base key before in
   let handled := snd (do_handle_event base key (app before)) in
   app after = handled ∧
   trace after = trace before ++ call_handle_event key ::
     (if is_running handled then [manager_process_events key] else [])).
Proof.
  split.
  - split; [reflexivity|]. split; [reflexivity|].
    exact (proj1 (proj2 (main_loop_close_and_other_events base frame_close started
                           [click] close [key] eq_refl)) eq_refl).
  - split; [reflexivity|].
    assert (N1 : type key ≠ QUIT) by discriminate.
    assert (N2 : type key ≠ WINDOWRESIZED) by discriminate.
    split; [exact N1|]. split; [exact N2|].
    exact (proj1 (proj2 (proj2 (main_loop_close_and_other_events base frame_close started
                                  [click; close] key [] eq_refl))) N1 N2).
Defined.

Lemma sizes_agree_invariant_witness :
  methods_keep_sizes (U:=unit) (O:=unit) base ∧
  sizes_agree (app started) ∧
  resize_announced frame_resize (app started) ∧
  sizes_agree (app (_main_loop base frame_resize started)) ∧
  size (app (_main_loop base frame_resize started)) = window_size_now frame_resize.
Proof.
  assert (K : methods_keep_sizes (U:=unit) (O:=unit) base).
  { repeat split. }
  assert (A : sizes_agree (app started)) by (split; reflexivity).
  assert (R : resize_announced frame_resize (app started)).
  { right. exists resized. split; [|reflexivity].
    apply list_elem_of_further, list_elem_of_here. }
  split; [exact K|]. split; [exact A|]. split; [exact R|].
  exact (proj1 (proj2 sizes_agree_invariant) base frame_resize started K A R).
Defined.

Lemma run_behaviour_witness :
  (is_running (app started) = true ∧
   run base [frame_idle; frame_close] started = Returned started) ∧
  (is_running (app fresh) = false ∧
   run base [frame_idle; frame_close; frame_idle] fresh =
     Returned (iterate base (take 2 [frame_idle; frame_close; frame_idle])
                       (on_app (with_is_running true) fresh))).
Proof.
  split.
  - split; [reflexivity|].
    exact (proj1 (run_behaviour base [frame_idle; frame_close] started) eq_refl).
  - split; [reflexivity|].
    refine (proj1 (proj2 (run_behaviour base [frame_idle; frame_close; frame_idle] fresh)
                     eq_refl) 2%nat _ _ _).
    + cbn. lia.
    + intros k Hk. destruct k as [|[|k]]; [reflexivity|reflexivity|lia].
    + reflexivity.
Defined.

End GuiAppFacts.

Module ThreePanelAppFacts.
Import Pygame ThreePanelApp Examples.

Section WithObjects.
Context {O : Type} `{GuiApp.IUpdateObject O}.

(** The constructor, case by case. *)
Lemma __init___cases args top bottom frac margins :
  let H := window_height args in
  let self0 : App (O:=O) := GuiApp.__init__ args unassigned in
  (rejects_fractions frac top bottom ∧
   __init__ args top bottom frac margins =
     Raises "Panels will not fit. Total is > 100%." self0) ∨
  (¬ rejects_fractions frac top bottom ∧ rejects_pixels frac H top bottom ∧
   __init__ args top bottom frac margins =
     Raises "Panels will not fit. Total is > window height." self0) ∨
  (¬ rejects_fractions frac top bottom ∧ ¬ rejects_pixels frac H top bottom ∧
   rejects_middle frac H top bottom ∧
   __init__ args top bottom frac margins =
     Raises "Panels will not fit. No room for middle panel."
       (GuiApp.with_attrs (mkAttrs (Some margins) (Some top) (Some bottom) None None None) self0)) ∨
  (¬ rejects_fractions frac top bottom ∧ ¬ rejects_pixels frac H top bottom ∧
   ¬ rejects_middle frac H top bottom ∧
   ∃ self : App (O:=O), __init__ args top bottom frac margins = Returns self ∧
     length (elements (GuiApp.ui_manager self)) = 3%nat ∧
     panel_heights self = heights_in_pixels frac H top bottom).
Proof.
  intros Hh self0. unfold __init__, rejects_fractions, rejects_pixels, rejects_middle, middle_height.
  fold self0. change (Py.Int (snd (display_size (GuiApp.root_window_surface self0)))) with Hh.
  destruct frac; cbn [andb negb].
  - destruct (Py.gt top (Py.Float 1)) eqn:E1; cbn [orb].
    { left. split; [|done]. split; [done|]. by left. }
    destruct (Py.gt bottom (Py.Float 1)) eqn:E2; cbn [orb].
    { left. split; [|done]. split; [done|]. right; by left. }
    destruct (Py.gt (Py.add top bottom) (Py.Float 1)) eqn:E3.
    { left. split; [|done]. split; [done|]. right; by right. }
    assert (Hnf : ¬ (true = true ∧ (false = true ∨ false = true ∨ false = true))).
    { intros [_ [?|[?|?]]]; done. }
    assert (Hnp : ¬ (true = false ∧ Py.gt (Py.add top bottom) Hh = true)).
    { by intros [? _]. }
    right; right.
    change (Py.Int (snd (display_size (GuiApp.root_window_surface
              (GuiApp.with_attrs (mkAttrs (Some margins) (Some top) (Some bottom) None None None) self0)))))
      with Hh.
    destruct (Py.le _ (Py.Int 0)) eqn:E4.
    { left. done. }
    right. split; [done|]. split; [done|]. split; [done|].
    eexists. split; [reflexivity|]. split; reflexivity.
  - destruct (Py.gt (Py.add top bottom) Hh) eqn:E1.
    { right; left. split; [by intros [? _]|]. done. }
    assert (Hnf : ∀ P, ¬ (false = true ∧ P)) by (by intros P [? _]).
    assert (Hnp : ¬ (false = false ∧ false = true)) by (by intros [_ ?]).
    right; right.
    change (Py.Int (snd (display_size (GuiApp.root_window_surface
              (GuiApp.with_attrs (mkAttrs (Some margins) (Some top) (Some bottom) None None None) self0)))))
      with Hh.
    destruct (Py.le _ (Py.Int 0)) eqn:E4.
    { left. done. }
    right. split; [done|]. split; [done|]. split; [done|].
    eexists. split; [reflexivity|]. split; reflexivity.
Qed.

(** C3.  The constructor raises exactly when one of the three conditions
    holds: with fractions, a height above 1.0 or a sum above 1.0; with
    pixels, a sum above the window height; in both, a middle height
    (window height less the resolved top and bottom heights) of at most 0.
    When it raises no panel is registered with the manager; when it returns
    there are three. *)
Theorem init_raises_iff args top bottom frac margins :
  let H := window_height args in
  ((∃ msg (self : App (O:=O)), __init__ args top bottom frac margins = Raises msg self) ↔
   rejects_fractions frac top bottom ∨ rejects_pixels frac H top bottom ∨
   rejects_middle frac H top bottom) ∧
  match __init__ (O:=O) args top bottom frac margins with
  | Raises _ self => elements (GuiApp.ui_manager self) = []
  | Returns self => length (elements (GuiApp.ui_manager self)) = 3%nat
  end.
Proof.
  intros Hh.
  destruct (__init___cases args top bottom frac margins)
    as [(R1 & E)|[(N1 & R2 & E)|[(N1 & N2 & R3 & E)|(N1 & N2 & N3 & self & E & L & _)]]];
    fold Hh in R2 || fold Hh in R3 || fold Hh in N3 || idtac; rewrite E.
  - split; [|done]. split; [tauto|]. intros _. by eexists _, _.
  - split; [|done]. split; [tauto|]. intros _. by eexists _, _.
  - split; [|done]. split; [tauto|]. intros _. by eexists _, _.
  - split; [|done]. split.
    + by intros (msg & self' & ?).
    + fold Hh in N2. tauto.
Qed.


(** C9.  A window 800 pixels high with [top_height=0.25],
    [bottom_height=0.10] and [heights_as_fractions=True]: the constructor
    returns, the panels are 200, 80 and 520 pixels high, and these sum to
    800.  The heights are computed as the floats 200.0, 80.0 and 520.0,
    which are these whole numbers. *)
Theorem example_window_800 width framerate title resizeable margins :
  ∃ self : App (O:=O),
    __init__ (GuiApp.mkArgs (width, 800) framerate title resizeable)
             (Py.Float 0.25) (Py.Float tenth) true margins = Returns self ∧
    panel_heights self = Some (200, 80, 520) ∧
    200 + 80 + 520 = 800 ∧
    Py.mul (Py.Int 800) (Py.Float 0.25) = Py.Float 200 ∧
    Py.mul (Py.Int 800) (Py.Float tenth) = Py.Float 80 ∧
    Py.sub (Py.Int 800) (Py.add (Py.Float 200) (Py.Float 80)) = Py.Float 520 ∧
    middle_height true (Py.Int 800) (Py.Float 0.25) (Py.Float tenth) = Py.Float 520 ∧
    Py.eq (Py.Float 200) (Py.Int 200) = true ∧
    Py.eq (Py.Float 80) (Py.Int 80) = true ∧
    Py.eq (Py.Float 520) (Py.Int 520) = true ∧
    Py.eq (Py.add (Py.add (Py.Float 200) (Py.Float 80)) (Py.Float 520)) (Py.Int 800) = true.
Proof.
  destruct (__init___cases (GuiApp.mkArgs (width, 800) framerate title resizeable)
              (Py.Float 0.25) (Py.Float tenth) true margins)
    as [([_ R] & _)|[(_ & [? _] & _)|[(_ & _ & R3 & _)|(_ & _ & _ & self & E & _ & P)]]].
  - vm_compute in R. destruct R as [R|[R|R]]; discriminate.
  - done.
  - vm_compute in R3. discriminate.
  - exists self. split; [exact E|]. split; [rewrite P; vm_compute; reflexivity|].
    repeat split; vm_compute; reflexivity.
Qed.

End WithObjects.



End ThreePanelAppFacts.

Module UIImageTiledFacts.
Import Pygame UIImageTiled Examples.

Lemma bind_val {A B : Type} (m : M A) (f : A → M B) h a h' :
  m h = Val a h' → (m ≫= f) h = f a h'.
Proof. unfold mbind, M_bind. by intros ->. Qed.

Lemma lookup_new (h : Heap) (s : Surface) : (h ++ [s]) !! length h = Some s.
Proof. by rewrite lookup_app_r, Nat.sub_diag. Qed.

Lemma lookup_old (h : Heap) (s tile : Surface) (r : Ref) :
  h !! r = Some tile → (h ++ [s]) !! r = Some tile.
Proof. intros Hr. by rewrite lookup_app_l by (by eapply lookup_lt_Some). Qed.

Lemma insert_new (h : Heap) (s s' : Surface) :
  <[length h := s']> (h ++ [s]) = h ++ [s'].
Proof. by rewrite insert_app_r_alt, Nat.sub_diag. Qed.

Lemma deref_val (h : Heap) (r : Ref) (s : Surface) :
  h !! r = Some s → deref r h = Val s h.
Proof. unfold deref. by intros ->. Qed.

Lemma blit_new (h : Heap) (r : Ref) (tile : Surface) size p pos :
  h !! r = Some tile →
  blit (length h) r pos (h ++ [mkSurface size p]) =
    Val () (h ++ [mkSurface size (Blit p (pixels tile) (get_size tile) pos)]).
Proof.
  intros Hr. unfold blit.
  erewrite bind_val by (apply deref_val, lookup_new).
  erewrite bind_val by (by eapply deref_val, lookup_old).
  unfold store. by rewrite insert_new.
Qed.

Lemma for_each_row (h : Heap) (r : Ref) (tile : Surface) size xs y p :
  h !! r = Some tile →
  for_each xs (λ x, blit (length h) r (x, y)) (h ++ [mkSurface size p]) =
    Val () (h ++ [mkSurface size (paint_row tile xs p y)]).
Proof.
  intros Hr. revert p. induction xs as [|x xs IH]; intros p; [done|].
  cbn [for_each]. erewrite bind_val by (by apply blit_new). apply IH.
Qed.

Lemma for_each_rows (h : Heap) (r : Ref) (tile : Surface) size width step xs ys p :
  h !! r = Some tile → Py.range0 width step = Some xs →
  for_each ys (λ y, xs ← range width step;
                    for_each xs (λ x, blit (length h) r (x, y)))
           (h ++ [mkSurface size p]) =
    Val () (h ++ [mkSurface size (paint tile xs ys p)]).
Proof.
  intros Hr Hxs. revert p. induction ys as [|y ys IH]; intros p; [done|].
  cbn [for_each].
  erewrite bind_val; [apply IH|].
  erewrite bind_val by (unfold range; by rewrite Hxs).
  by apply for_each_row.
Qed.

Lemma blit_offsets_paint_row tile xs p y :
  blit_offsets (paint_row tile xs p y) = blit_offsets p ++ ((λ x, (x, y)) <$> xs).
Proof.
  revert p. induction xs as [|x xs IH]; intros p; cbn.
  - by rewrite app_nil_r.
  - unfold paint_row in IH. rewrite IH. cbn. by rewrite <- app_assoc.
Qed.

Lemma blit_offsets_paint tile xs ys p :
  blit_offsets (paint tile xs ys p) = blit_offsets p ++ grid xs ys.
Proof.
  revert p. induction ys as [|y ys IH]; intros p; cbn.
  - by rewrite app_nil_r.
  - unfold paint in IH. rewrite IH, blit_offsets_paint_row.
    rewrite <- app_assoc. f_equal.
Qed.

Lemma grid_elem xs ys x y : (x, y) ∈ grid xs ys ↔ x ∈ xs ∧ y ∈ ys.
Proof.
  unfold grid. rewrite list_elem_of_bind. split.
  - intros (y' & Hin & Hy). apply list_elem_of_bind in Hin as (x' & Hin & Hx).
    apply list_elem_of_singleton in Hin as [= -> ->]. done.
  - intros [Hx Hy]. exists y. split; [|done].
    apply list_elem_of_bind. exists x. split; [|done]. by apply list_elem_of_singleton.
Qed.

(** What [create_tiled_surface] does when the sizes it compares differ. *)
Lemma create_tiled_surface_composes (h : Heap) (self : t) (r : Ref) (tile : Surface)
    (W H : Z) xs ys :
  _tile self = Some r → h !! r = Some tile → rect_size self = (W, H) →
  ¬ (W = get_height tile ∧ H = get_width tile) →
  0 ≤ W → 0 ≤ H →
  Py.range0 H (get_width tile) = Some ys →
  Py.range0 W (get_height tile) = Some xs →
  create_tiled_surface self h =
    Val (Some (length h)) (h ++ [mkSurface (W, H) (paint tile xs ys Blank)]).
Proof.
  intros Ht Hr Hsz Hne HW HH Hys Hxs. unfold create_tiled_surface.
  rewrite Ht, Hsz. erewrite bind_val by (by apply deref_val).
  rewrite decide_False by done.
  unfold Surface_new. cbn [fst snd]. rewrite decide_False by lia.
  erewrite bind_val by reflexivity.
  erewrite bind_val by (unfold range; by rewrite Hys).
  erewrite bind_val by (by eapply for_each_rows).
  done.
Qed.

(** What it does when they are equal: nothing. *)
Lemma create_tiled_surface_returns_tile (h : Heap) (self : t) (r : Ref) (tile : Surface) :
  _tile self = Some r → h !! r = Some tile →
  rect_size self = (get_height tile, get_width tile) →
  create_tiled_surface self h = Val (Some r) h.
Proof.
  intros Ht Hr Hsz. unfold create_tiled_surface.
  rewrite Ht, Hsz. erewrite bind_val by (by apply deref_val).
  by rewrite decide_True.
Qed.

Lemma convert_alpha_val (h : Heap) (r : Ref) (s : Surface) :
  h !! r = Some s →
  convert_alpha (Some r) h =
    Val (length h) (h ++ [mkSurface (get_size s) (ConvertAlpha (pixels s))]).
Proof.
  intros Hr. unfold convert_alpha. by erewrite bind_val by (by apply deref_val).
Qed.

Lemma premul_alpha_surface_new (h : Heap) size p :
  premul_alpha_surface (length h) (h ++ [mkSurface size p]) =
    Val (Some (length h)) (h ++ [mkSurface size (PremulAlpha p)]).
Proof.
  unfold premul_alpha_surface.
  erewrite bind_val by (apply deref_val, lookup_new).
  erewrite bind_val by reflexivity.
  cbn. by rewrite insert_new.
Qed.

(** Tiling, converting and premultiplying, as both [__init__] and
    [set_dimensions] do it. *)
Lemma finish_val {A : Type} (h : Heap) (r : Ref) (s : Surface) (k : option Ref → M A) :
  h !! r = Some s →
  (converted ← convert_alpha (Some r); premul ← premul_alpha_surface converted; k premul) h =
    k (Some (length h)) (h ++ [finished (get_size s) (pixels s)]).
Proof.
  intros Hr.
  erewrite bind_val by (by apply convert_alpha_val).
  by erewrite bind_val by apply premul_alpha_surface_new.
Qed.

Lemma smoothscale_val (h : Heap) (r : Ref) (s : Surface) (size : Size) :
  h !! r = Some s → 0 ≤ fst size → 0 ≤ snd size →
  smoothscale (Some r) size h =
    Val (length h) (h ++ [mkSurface size (SmoothScale (pixels s) (get_size s) size)]).
Proof.
  intros Hr H1 H2. unfold smoothscale.
  erewrite bind_val by (by apply deref_val).
  by rewrite decide_False by lia.
Qed.

(** What [set_image] installs: a copy, at the end of the heap. *)
Lemma set_image_val (h : Heap) (r : Ref) (s : Surface) (self : t) :
  h !! r = Some s →
  set_image (Some r) self h =
    Val (mk (rect_size self) (_tile self) (original_image self) (Some (length h)) None)
        (h ++ [s]).
Proof.
  intros Hr. unfold set_image, copy.
  erewrite bind_val; [reflexivity|].
  by erewrite bind_val by (by apply deref_val).
Qed.

Lemma lookup_new2 (h : Heap) (s s' : Surface) : (h ++ [s; s']) !! S (length h) = Some s'.
Proof.
  change (h ++ [s; s']) with (h ++ [s] ++ [s']). rewrite app_assoc.
  replace (S (length h)) with (length (h ++ [s])) by (rewrite length_app; cbn; lia).
  apply lookup_new.
Qed.

Lemma length_new (h : Heap) (s : Surface) : length (h ++ [s]) = S (length h).
Proof. rewrite length_app. cbn. lia. Qed.

(** The constructor when the tile is replicated. *)
Lemma __init___composes (h : Heap) (r : Ref) (tile : Surface) (W H : Z) xs ys :
  h !! r = Some tile →
  ¬ (W = get_height tile ∧ H = get_width tile) →
  0 ≤ W → 0 ≤ H →
  Py.range0 H (get_width tile) = Some ys →
  Py.range0 W (get_height tile) = Some xs →
  let composed := mkSurface (W, H) (paint tile xs ys Blank) in
  let tiled := finished (W, H) (paint tile xs ys Blank) in
  __init__ (W, H) (Some r) h =
    Val (mk (W, H) (Some r) None (Some (length (h ++ [composed; tiled]))) None)
        ((h ++ [composed; tiled]) ++ [tiled]).
Proof.
  intros Hr Hne HW HH Hys Hxs composed tiled. unfold __init__.
  erewrite bind_val by (by eapply create_tiled_surface_composes).
  fold composed. erewrite finish_val by apply lookup_new.
  erewrite bind_val by apply deref_val, lookup_new.
  cbn [get_size pixels composed finished get_width get_height fst snd
       rect_size with_tile with_original_image].
  rewrite decide_False by (intros [?|?]; done).
  fold tiled. rewrite <- app_assoc. cbn [app].
  by rewrite (set_image_val _ _ tiled) by (rewrite length_new; apply lookup_new2).
Qed.

(** The constructor when [create_tiled_surface] hands back the tile. *)
Lemma __init___keeps_tile (h : Heap) (r : Ref) (tile : Surface) :
  h !! r = Some tile → 0 ≤ get_width tile → 0 ≤ get_height tile →
  let size := (get_height tile, get_width tile) in
  let done := finished (get_size tile) (pixels tile) in
  let scaled := mkSurface size (SmoothScale (pixels done) (get_size tile) size) in
  __init__ size (Some r) h =
    if decide (get_width tile = get_height tile)
    then Val (mk size (Some r) None (Some (length (h ++ [done]))) None)
             ((h ++ [done]) ++ [done])
    else Val (mk size (Some r) (Some (length h))
                 (Some (length (h ++ [done; scaled]))) None)
             ((h ++ [done; scaled]) ++ [scaled]).
Proof.
  intros Hr Hw Hh size done' scaled. unfold __init__.
  erewrite bind_val by (by eapply create_tiled_surface_returns_tile).
  erewrite finish_val by done. fold done'.
  erewrite bind_val by apply deref_val, lookup_new.
  cbn [get_size pixels done' finished get_width get_height fst snd
       rect_size with_tile with_original_image size original_image].
  destruct (decide (get_width tile = get_height tile)) as [Heq|Hneq].
  - rewrite decide_False.
    2:{ unfold get_width, get_height in *. destruct (get_size tile); cbn in *. lia. }
    by rewrite (set_image_val _ _ (finished (get_size tile) (pixels tile)))
      by apply lookup_new.
  - rewrite decide_True.
    2:{ unfold get_width, get_height in *. destruct (get_size tile); cbn in *. lia. }
    erewrite bind_val by (apply smoothscale_val; [apply lookup_new|done|done]).
    fold done'. cbn [pixels get_size finished]. rewrite <- app_assoc. cbn [app].
    by rewrite (set_image_val _ _ scaled) by (rewrite length_new; apply lookup_new2).
Qed.

(** [set_dimensions] when the size changes and the tile is replicated. *)
Lemma set_dimensions_composes (h : Heap) (self : t) (r : Ref) (tile old : Surface)
    (W H : Z) xs ys :
  _tile self = Some r → h !! r = Some tile → shown self h = Some old →
  get_size old ≠ (W, H) →
  ¬ (W = get_height tile ∧ H = get_width tile) →
  0 ≤ W → 0 ≤ H →
  Py.range0 H (get_width tile) = Some ys →
  Py.range0 W (get_height tile) = Some xs →
  let composed := mkSurface (W, H) (paint tile xs ys Blank) in
  let tiled := finished (W, H) (paint tile xs ys Blank) in
  set_dimensions (W, H) self h =
    Val (mk (W, H) (Some r) (Some (length (h ++ [composed])))
            (Some (length (h ++ [composed; tiled]))) None)
        ((h ++ [composed; tiled]) ++ [tiled]).
Proof.
  intros Ht Hr Hold Hsz Hne HW HH Hys Hxs composed tiled. unfold set_dimensions.
  unfold shown in Hold. destruct (image self) as [img|] eqn:Himg; [|done].
  cbn in Hold. cbn [image with_rect_size]. rewrite Himg.
  erewrite bind_val by (by apply deref_val).
  rewrite decide_True by (cbn; congruence).
  erewrite bind_val by (by eapply (create_tiled_surface_composes h _ r tile W H)).
  fold composed. cbn [with_original_image original_image].
  erewrite finish_val by apply lookup_new.
  cbn [get_size pixels composed]. fold tiled.
  cbn [with_original_image original_image _pre_clipped_image image rect_size _tile].
  rewrite <- app_assoc. cbn [app].
  rewrite (set_image_val _ _ tiled) by (rewrite length_new; apply lookup_new2).
  unfold with_original_image, with_rect_size.
  cbn [rect_size _tile original_image]. by rewrite Ht.
Qed.

(** [set_dimensions] when the size changes and [create_tiled_surface] hands
    back the tile: nothing is scaled. *)
Lemma set_dimensions_keeps_tile (h : Heap) (self : t) (r : Ref) (tile old : Surface) :
  _tile self = Some r → h !! r = Some tile → shown self h = Some old →
  let size := (get_height tile, get_width tile) in
  get_size old ≠ size →
  let premultiplied := finished (get_size tile) (pixels tile) in
  set_dimensions size self h =
    Val (mk size (Some r) (Some (length h)) (Some (length (h ++ [premultiplied]))) None)
        ((h ++ [premultiplied]) ++ [premultiplied]).
Proof.
  intros Ht Hr Hold size Hsz premultiplied. unfold set_dimensions.
  unfold shown in Hold. destruct (image self) as [img|] eqn:Himg; [|done].
  cbn in Hold. cbn [image with_rect_size]. rewrite Himg.
  erewrite bind_val by (by apply deref_val).
  rewrite decide_True by (cbn; congruence).
  erewrite bind_val by (by eapply (create_tiled_surface_returns_tile h _ r tile)).
  cbn [with_original_image original_image].
  erewrite finish_val by done. fold premultiplied.
  cbn [with_original_image original_image _pre_clipped_image image rect_size _tile].
  rewrite (set_image_val _ _ premultiplied) by apply lookup_new.
  unfold with_original_image, with_rect_size.
  cbn [rect_size _tile original_image]. by rewrite Ht.
Qed.

(** [set_dimensions] when the image already has the new size. *)
Lemma set_dimensions_same_size (h : Heap) (self : t) (old : Surface) (size : Size) :
  shown self h = Some old → get_size old = size →
  set_dimensions size self h = Val (with_rect_size size self) h.
Proof.
  intros Hold Hsz. unfold set_dimensions.
  unfold shown in Hold. destruct (image self) as [img|] eqn:Himg; [|done].
  cbn in Hold. cbn [image with_rect_size]. rewrite Himg.
  erewrite bind_val by (by apply deref_val).
  by rewrite decide_False by (cbn; intros ?; congruence).
Qed.

Lemma shown_new (self : t) (h : Heap) (s : Surface) :
  image self = Some (length h) → shown self (h ++ [s]) = Some s.
Proof. unfold shown. intros ->. cbn. apply lookup_new. Qed.

(** C5.  For a tile of positive width and height and a target that is
    wider and higher than the tile: the constructor shows an image of
    exactly the target's size, the tiled surface, premultiplied and not
    rescaled; and [set_dimensions] to that target leaves the widget showing
    an image of exactly that size, the image it had if that already was of
    this size, the same tiled surface if not. *)
Theorem installed_image_fits (h : Heap) (r : Ref) (tile : Surface) (W H : Z) :
  h !! r = Some tile →
  0 < get_width tile → 0 < get_height tile →
  get_width tile < W → get_height tile < H →
  ∃ xs ys,
    Py.range0 W (get_height tile) = Some xs ∧
    Py.range0 H (get_width tile) = Some ys ∧
    let tiled := finished (W, H) (paint tile xs ys Blank) in
    get_size tiled = (W, H) ∧
    (∃ self h',
       __init__ (W, H) (Some r) h = Val self h' ∧
       rect_size self = (W, H) ∧ shown self h' = Some tiled) ∧
    (∀ self0 old,
       _tile self0 = Some r → shown self0 h = Some old →
       ∃ self h' s,
         set_dimensions (W, H) self0 h = Val self h' ∧
         rect_size self = (W, H) ∧
         shown self h' = Some s ∧ get_size s = (W, H) ∧
         s = if decide (get_size old = (W, H)) then old else tiled).
Proof.
  intros Hr Hw Hh HW HH.
  destruct (PyFacts.range0_Some W (get_height tile)) as [xs Hxs]; [lia|].
  destruct (PyFacts.range0_Some H (get_width tile)) as [ys Hys]; [lia|].
  assert (Hne : ¬ (W = get_height tile ∧ H = get_width tile)) by lia.
  exists xs, ys. split; [done|]. split; [done|]. cbv zeta.
  split; [done|]. split.
  - eexists _, _. split; [apply (__init___composes h r tile W H xs ys); done || lia|].
    split; [done|]. by apply shown_new.
  - intros self0 old Ht Hold.
    destruct (decide (get_size old = (W, H))) as [Heq|Hneq].
    + eexists _, _, old.
      split; [by eapply set_dimensions_same_size|]. by repeat split.
    + eexists _, _, _.
      split; [apply (set_dimensions_composes h self0 r tile old W H xs ys); done || lia|].
      split; [done|]. split; [by apply shown_new|done].
Qed.

(** X16.  Outside the one size at which [create_tiled_surface] hands back
    a tile that is not square, a resize to a size other than that of the
    image shows what a new widget of that size shows. *)
Lemma set_dimensions_as_fresh (h : Heap) (r : Ref) (tile old : Surface) (self0 : t)
    (W H : Z) :
  h !! r = Some tile → 0 < get_width tile → 0 < get_height tile →
  0 ≤ W → 0 ≤ H →
  get_width tile = get_height tile ∨ ¬ (W = get_height tile ∧ H = get_width tile) →
  _tile self0 = Some r → shown self0 h = Some old → get_size old ≠ (W, H) →
  ∃ self h1 fresh h2 s,
    set_dimensions (W, H) self0 h = Val self h1 ∧
    __init__ (W, H) (Some r) h = Val fresh h2 ∧
    shown self h1 = Some s ∧ shown fresh h2 = Some s.
Proof.
  intros Hr Hw Hh HW HH Hcase Ht Hold Hsz.
  destruct (decide (W = get_height tile ∧ H = get_width tile)) as [[-> ->]|Hne].
  - destruct Hcase as [Hsq|?]; [|tauto].
    pose proof (__init___keeps_tile h r tile Hr ltac:(lia) ltac:(lia)) as Hi.
    cbv zeta in Hi. rewrite decide_True in Hi by done.
    eexists _, _, _, _, _.
    split; [by eapply set_dimensions_keeps_tile|]. split; [exact Hi|].
    split; by apply shown_new.
  - destruct (PyFacts.range0_Some W (get_height tile)) as [xs Hxs]; [lia|].
    destruct (PyFacts.range0_Some H (get_width tile)) as [ys Hys]; [lia|].
    eexists _, _, _, _, _.
    split; [by apply (set_dimensions_composes h self0 r tile old W H xs ys)|].
    split; [by apply (__init___composes h r tile W H xs ys)|].
    split; by apply shown_new.
Qed.

(** Where the tile is replicated, the offsets step by the tile's height
    along x and by its width along y. *)
Lemma create_tiled_surface_offsets (h : Heap) (self : t) (r : Ref) (tile : Surface)
    (W H : Z) xs ys :
  _tile self = Some r → h !! r = Some tile → rect_size self = (W, H) →
  ¬ (W = get_height tile ∧ H = get_width tile) →
  0 ≤ W → 0 ≤ H →
  Py.range0 H (get_width tile) = Some ys →
  Py.range0 W (get_height tile) = Some xs →
  ∃ h' s,
    create_tiled_surface self h = Val (Some (length h)) h' ∧
    h' !! length h = Some s ∧ get_size s = (W, H) ∧
    blit_offsets (pixels s) = grid xs ys.
Proof.
  intros. eexists _, _. split; [by eapply create_tiled_surface_composes|].
  split; [apply lookup_new|]. split; [done|]. apply blit_offsets_paint.
Qed.

(** A square tile in a target of its own size is returned as it is. *)
Lemma create_tiled_surface_square_tile (h : Heap) (self : t) (r : Ref) (tile : Surface) :
  _tile self = Some r → h !! r = Some tile →
  get_width tile = get_height tile → rect_size self = get_size tile →
  create_tiled_surface self h = Val (Some r) h.
Proof.
  intros Ht Hr Hsq Hsz. eapply create_tiled_surface_returns_tile; [done..|].
  rewrite Hsz. unfold get_width, get_height in *. destruct (get_size tile); cbn in *.
  by subst.
Qed.

(** C1.  A tile whose width and height differ, in a target of exactly the
    tile's size: the result is not the tile but a new surface of that size,
    onto which the tile has been drawn at the offsets that step by the
    tile's height along x and by its width along y. *)
Theorem same_size_tile_is_replicated (h : Heap) (self : t) (r : Ref) (tile : Surface) :
  _tile self = Some r → h !! r = Some tile → rect_size self = get_size tile →
  0 < get_width tile → 0 < get_height tile → get_width tile ≠ get_height tile →
  ∃ xs ys,
    Py.range0 (get_width tile) (get_height tile) = Some xs ∧
    Py.range0 (get_height tile) (get_width tile) = Some ys ∧
    create_tiled_surface self h =
      Val (Some (length h))
          (h ++ [mkSurface (get_size tile) (paint tile xs ys Blank)]) ∧
    length h ≠ r.
Proof.
  intros Ht Hr Hsz Hw Hh Hne.
  destruct (PyFacts.range0_Some (get_width tile) (get_height tile)) as [xs Hxs]; [lia|].
  destruct (PyFacts.range0_Some (get_height tile) (get_width tile)) as [ys Hys]; [lia|].
  exists xs, ys. split; [done|]. split; [done|]. split.
  - assert (Hsz' : rect_size self = (get_width tile, get_height tile)).
    { rewrite Hsz. unfold get_width, get_height. by destruct (get_size tile). }
    assert (Hgs : get_size tile = (get_width tile, get_height tile)).
    { unfold get_width, get_height. by destruct (get_size tile). }
    rewrite Hgs at 1.
    apply (create_tiled_surface_composes h self r tile _ _ xs ys); try done; lia.
  - apply lookup_lt_Some in Hr. lia.
Qed.

Lemma same_size_tile_is_replicated_witness :
  _tile (blank_widget (2, 3)) = Some 0%nat ∧ [tile23] !! 0%nat = Some tile23 ∧
  rect_size (blank_widget (2, 3)) = get_size tile23 ∧
  0 < get_width tile23 ∧ 0 < get_height tile23 ∧
  get_width tile23 ≠ get_height tile23 ∧
  ∃ xs ys,
    Py.range0 (get_width tile23) (get_height tile23) = Some xs ∧
    Py.range0 (get_height tile23) (get_width tile23) = Some ys ∧
    create_tiled_surface (blank_widget (2, 3)) [tile23] =
      Val (Some (length [tile23]))
          ([tile23] ++ [mkSurface (get_size tile23) (paint tile23 xs ys Blank)]) ∧
    length [tile23] ≠ 0%nat.
Proof.
  assert (N : get_width tile23 ≠ get_height tile23) by discriminate.
  repeat (split; [reflexivity|]). split; [exact N|].
  exact (same_size_tile_is_replicated [tile23] (blank_widget (2, 3)) 0%nat tile23
           eq_refl eq_refl eq_refl eq_refl eq_refl N).
Defined.

(** The same at a tile of 2 by 3 pixels, in full: the result is surface 1,
    not the tile, which is surface 0. *)
Lemma tile23_same_size :
  create_tiled_surface (blank_widget (2, 3)) [tile23] =
    Val (Some 1%nat)
        [tile23;
         mkSurface (2, 3)
           (Blit (Blit Blank (Loaded "tile") (2, 3) (0, 0)) (Loaded "tile") (2, 3) (0, 2))].
Proof. reflexivity. Qed.

(** C2.  Where the target differs from the transposed size of the tile, a
    new surface of the target's size is made and the tile drawn at the
    offsets that step by the tile's height along x (below the target's
    width) and by its width along y (below the target's height), row by
    row: width and height of the tile have changed places.  At the
    transposed size the tile itself is returned and nothing is allocated,
    also when that is not the tile's size. *)
Theorem offsets_step_by_transposed_tile (h : Heap) (self : t) (r : Ref)
    (tile : Surface) (W H : Z) :
  _tile self = Some r → h !! r = Some tile → rect_size self = (W, H) →
  0 < get_width tile → 0 < get_height tile → 0 ≤ W → 0 ≤ H →
  if decide (W = get_height tile ∧ H = get_width tile)
  then create_tiled_surface self h = Val (Some r) h
  else ∃ result h',
         create_tiled_surface self h = Val result h' ∧
         replicated h h' result tile W H.
Proof.
  intros Ht Hr Hsz Hw Hh HW HH.
  destruct (decide (W = get_height tile ∧ H = get_width tile)) as [[-> ->]|Hne].
  - by eapply create_tiled_surface_returns_tile.
  - destruct (PyFacts.range0_Some W (get_height tile)) as [xs Hxs]; [lia|].
    destruct (PyFacts.range0_Some H (get_width tile)) as [ys Hys]; [lia|].
    destruct (create_tiled_surface_offsets h self r tile W H xs ys)
      as (h' & s & E & L & S & B); try done.
    exists (Some (length h)), h'. split; [done|].
    exists xs, ys, s. repeat (split; [done|]).
    intros x y. rewrite B, grid_elem.
    by rewrite (PyFacts.range0_elem W (get_height tile) xs x),
               (PyFacts.range0_elem H (get_width tile) ys y).
Qed.

Lemma offsets_step_by_transposed_tile_witness :
  (_tile (blank_widget (4, 6)) = Some 0%nat ∧ [tile23] !! 0%nat = Some tile23 ∧
   rect_size (blank_widget (4, 6)) = (4, 6) ∧
   0 < get_width tile23 ∧ 0 < get_height tile23 ∧ 0 ≤ 4 ∧ 0 ≤ 6 ∧
   if decide (4 = get_height tile23 ∧ 6 = get_width tile23)
   then create_tiled_surface (blank_widget (4, 6)) [tile23] = Val (Some 0%nat) [tile23]
   else ∃ result h',
          create_tiled_surface (blank_widget (4, 6)) [tile23] = Val result h' ∧
          replicated [tile23] h' result tile23 4 6) ∧
  (_tile (blank_widget (3, 2)) = Some 0%nat ∧ [tile23] !! 0%nat = Some tile23 ∧
   rect_size (blank_widget (3, 2)) = (3, 2) ∧
   0 < get_width tile23 ∧ 0 < get_height tile23 ∧ 0 ≤ 3 ∧ 0 ≤ 2 ∧
   if decide (3 = get_height tile23 ∧ 2 = get_width tile23)
   then create_tiled_surface (blank_widget (3, 2)) [tile23] = Val (Some 0%nat) [tile23]
   else ∃ result h',
          create_tiled_surface (blank_widget (3, 2)) [tile23] = Val result h' ∧
          replicated [tile23] h' result tile23 3 2).
Proof.
  assert (P4 : 0 ≤ 4) by discriminate. assert (P6 : 0 ≤ 6) by discriminate.
  assert (P3 : 0 ≤ 3) by discriminate. assert (P2 : 0 ≤ 2) by discriminate.
  split.
  - repeat (split; [reflexivity|]). split; [exact P4|]. split; [exact P6|].
    exact (offsets_step_by_transposed_tile [tile23] (blank_widget (4, 6)) 0%nat tile23 4 6
             eq_refl eq_refl eq_refl eq_refl eq_refl P4 P6).
  - repeat (split; [reflexivity|]). split; [exact P3|]. split; [exact P2|].
    exact (offsets_step_by_transposed_tile [tile23] (blank_widget (3, 2)) 0%nat tile23 3 2
             eq_refl eq_refl eq_refl eq_refl eq_refl P3 P2).
Defined.

(** The same at a tile of 2 by 3 pixels, in full.  In a target of 4 by 6
    pixels the tile is drawn at x = 0, 3 and y = 0, 2, 4, where stepping by
    its width along x and by its height along y gives x = 0, 2 and
    y = 0, 3.  In a target of 3 by 2 pixels the tile itself is returned. *)
Lemma tile23_offsets :
  (∃ h' s,
     create_tiled_surface (blank_widget (4, 6)) [tile23] = Val (Some 1%nat) h' ∧
     h' !! 1%nat = Some s ∧ get_size s = (4, 6) ∧
     blit_offsets (pixels s) = [(0, 0); (3, 0); (0, 2); (3, 2); (0, 4); (3, 4)] ∧
     claimed_offsets tile23 (4, 6) = Some [(0, 0); (2, 0); (0, 3); (2, 3)]) ∧
  create_tiled_surface (blank_widget (3, 2)) [tile23] = Val (Some 0%nat) [tile23].
Proof. split; [|reflexivity]. eexists _, _. repeat split; reflexivity. Qed.

(** C6.  A widget of a tile whose width and height differ, resized to the
    transposed size of the tile from an image of another size: it shows the
    premultiplied tile at the tile's own size, which is not the size of its
    rectangle, where a new widget of the transposed size shows that
    surface rescaled to the transposed size. *)
Theorem resize_to_transposed_size_is_not_fresh (h : Heap) (self0 : t) (r : Ref)
    (tile old : Surface) :
  _tile self0 = Some r → h !! r = Some tile → shown self0 h = Some old →
  0 < get_width tile → 0 < get_height tile → get_width tile ≠ get_height tile →
  let size := (get_height tile, get_width tile) in
  get_size old ≠ size →
  let premultiplied := finished (get_size tile) (pixels tile) in
  size_in (set_dimensions size self0 h) = Some size ∧
  shown_in (set_dimensions size self0 h) = Some premultiplied ∧
  get_size premultiplied ≠ size ∧
  size_in (__init__ size (Some r) h) = Some size ∧
  shown_in (__init__ size (Some r) h) =
    Some (mkSurface size (SmoothScale (pixels premultiplied) (get_size tile) size)).
Proof.
  intros Ht Hr Hold Hw Hh Hne size Hsz premultiplied.
  subst size premultiplied.
  rewrite (set_dimensions_keeps_tile h self0 r tile old Ht Hr Hold Hsz).
  pose proof (__init___keeps_tile h r tile Hr ltac:(lia) ltac:(lia)) as Hi.
  cbv zeta in Hi. rewrite decide_False in Hi by done. rewrite Hi.
  split; [done|]. split; [by apply shown_new|]. split.
  - unfold get_width, get_height in *. cbn.
    destruct (get_size tile). cbn in *. congruence.
  - split; [done|]. cbn [shown_in]. by apply shown_new.
Qed.

Lemma resize_to_transposed_size_is_not_fresh_witness :
  let h := [tile23; mkSurface (4, 4) Blank] in
  let self0 := mk (4, 4) (Some 0%nat) None (Some 1%nat) None in
  let size := (get_height tile23, get_width tile23) in
  let premultiplied := finished (get_size tile23) (pixels tile23) in
  _tile self0 = Some 0%nat ∧ h !! 0%nat = Some tile23 ∧
  shown self0 h = Some (mkSurface (4, 4) Blank) ∧
  0 < get_width tile23 ∧ 0 < get_height tile23 ∧
  get_width tile23 ≠ get_height tile23 ∧
  get_size (mkSurface (4, 4) Blank) ≠ size ∧
  size_in (set_dimensions size self0 h) = Some size ∧
  shown_in (set_dimensions size self0 h) = Some premultiplied ∧
  get_size premultiplied ≠ size ∧
  size_in (__init__ size (Some 0%nat) h) = Some size ∧
  shown_in (__init__ size (Some 0%nat) h) =
    Some (mkSurface size (SmoothScale (pixels premultiplied) (get_size tile23) size)).
Proof.
  cbv zeta.
  assert (N : get_width tile23 ≠ get_height tile23) by discriminate.
  assert (S : get_size (mkSurface (4, 4) Blank) ≠ (get_height tile23, get_width tile23))
    by discriminate.
  repeat (split; [reflexivity|]). split; [exact N|]. split; [exact S|].
  exact (resize_to_transposed_size_is_not_fresh
           [tile23; mkSurface (4, 4) Blank] (mk (4, 4) (Some 0%nat) None (Some 1%nat) None)
           0%nat tile23 (mkSurface (4, 4) Blank)
           eq_refl eq_refl eq_refl eq_refl eq_refl N S).
Defined.

(** The same at a tile of 2 by 3 pixels, in full: a widget made at 4 by 4
    pixels and resized to 3 by 2 shows the premultiplied tile at 2 by 3
    pixels, where a new widget of 3 by 2 pixels shows it rescaled to 3 by
    2. *)
Lemma tile23_resized :
  let resized := (__init__ (4, 4) (Some 0%nat) ≫= set_dimensions (3, 2)) [tile23] in
  let fresh := __init__ (3, 2) (Some 0%nat) [tile23] in
  size_in resized = Some (3, 2) ∧
  shown_in resized =
    Some (mkSurface (2, 3) (PremulAlpha (ConvertAlpha (Loaded "tile")))) ∧
  size_in fresh = Some (3, 2) ∧
  shown_in fresh =
    Some (mkSurface (3, 2)
            (SmoothScale (PremulAlpha (ConvertAlpha (Loaded "tile"))) (2, 3) (3, 2))).
Proof. repeat split; vm_compute; reflexivity. Qed.

Lemma installed_image_fits_witness :
  let h := [tile23; mkSurface (5, 5) Blank] in
  h !! 0%nat = Some tile23 ∧
  0 < get_width tile23 ∧ 0 < get_height tile23 ∧
  get_width tile23 < 4 ∧ get_height tile23 < 6 ∧
  ∃ xs ys,
    Py.range0 4 (get_height tile23) = Some xs ∧
    Py.range0 6 (get_width tile23) = Some ys ∧
    let tiled := finished (4, 6) (paint tile23 xs ys Blank) in
    get_size tiled = (4, 6) ∧
    (∃ self h',
       __init__ (4, 6) (Some 0%nat) h = Val self h' ∧
       rect_size self = (4, 6) ∧ shown self h' = Some tiled) ∧
    (∀ self0 old,
       _tile self0 = Some 0%nat → shown self0 h = Some old →
       ∃ self h' s,
         set_dimensions (4, 6) self0 h = Val self h' ∧
         rect_size self = (4, 6) ∧
         shown self h' = Some s ∧ get_size s = (4, 6) ∧
         s = if decide (get_size old = (4, 6)) then old else tiled).
Proof.
  cbv zeta. split; [reflexivity|]. repeat (split; [reflexivity|]).
  apply (installed_image_fits [tile23; mkSurface (5, 5) Blank] 0%nat tile23 4 6);
    reflexivity.
Defined.

End UIImageTiledFacts.

Module GuiAppTraceFacts.
Import Pygame GuiApp GuiAppTrace Examples.

Section WithMethods.
Context {U O : Type} {upd : IUpdateObject O}.
Implicit Types (w : World U O) (cls : Methods U O) (self : t U O).

Lemma calls_between_app w w' calls :
  trace w' = trace w ++ calls → calls_between w w' = calls.
Proof. unfold calls_between. intros ->. by rewrite drop_app_length. Qed.

Lemma handled_app c1 c2 : handled (c1 ++ c2) = handled c1 ++ handled c2.
Proof. apply omap_app. Qed.

Lemma forwarded_app c1 c2 : forwarded (c1 ++ c2) = forwarded c1 ++ forwarded c2.
Proof. apply omap_app. Qed.

Lemma not_in_app (c : Call) c1 c2 : (c ∉ c1) → (c ∉ c2) → c ∉ (c1 ++ c2).
Proof. rewrite elem_of_app. tauto. Qed.

(** The calls of one [dispatch], by the kind of event. *)
Lemma dispatch_calls cls e w :
  ∃ calls,
    trace (dispatch cls e w) = trace w ++ calls ∧
    handled calls = (if decide (is_other e) then [e] else []) ∧
    forwarded calls = (if is_running (app (dispatch cls e w)) then [e] else []) ∧
    display_update ∉ calls.
Proof.
  destruct (decide (type e = QUIT)) as [Hq|Hq].
  { rewrite (GuiAppFacts.dispatch_quit cls e w Hq). cbn.
    eexists. split; [reflexivity|].
    rewrite decide_False by (intros [? _]; done).
    repeat split. not_among. }
  destruct (decide (type e = WINDOWRESIZED)) as [Hr|Hr].
  { rewrite (GuiAppFacts.dispatch_resized cls e w Hr). cbn.
    eexists. split; [reflexivity|].
    rewrite decide_False by (intros [_ ?]; done).
    destruct (is_running (app w)); repeat split; not_among. }
  rewrite (GuiAppFacts.dispatch_other cls e w Hq Hr). cbn.
  eexists. split; [reflexivity|].
  rewrite decide_True by done.
  destruct (is_running _); repeat split; not_among.
Qed.

Lemma dispatch_is_running cls e w :
  handler_keeps_running cls →
  is_running (app (dispatch cls e w)) =
    is_running (app w) && negb (bool_decide (type e = QUIT)).
Proof.
  intros Hk. destruct (decide (type e = QUIT)) as [Hq|Hq].
  { rewrite (GuiAppFacts.dispatch_quit cls e w Hq). cbn.
    rewrite bool_decide_true by done. by rewrite andb_false_r. }
  rewrite bool_decide_false, andb_true_r by done.
  destruct (decide (type e = WINDOWRESIZED)) as [Hr|Hr].
  { by rewrite (GuiAppFacts.dispatch_resized cls e w Hr). }
  rewrite (GuiAppFacts.dispatch_other cls e w Hq Hr). cbn. apply Hk.
Qed.

Lemma has_quit_cons e evs :
  has_quit (e :: evs) = bool_decide (type e = QUIT) || has_quit evs.
Proof.
  unfold has_quit. apply eq_true_iff_eq.
  rewrite orb_true_iff, !bool_decide_eq_true, Exists_cons. done.
Qed.

Lemma drain_calls cls evs w :
  ∃ calls,
    trace (drain cls evs w) = trace w ++ calls ∧
    handled calls = filter is_other evs ∧
    (display_update ∉ calls) ∧
    (handler_keeps_running cls →
       is_running (app (drain cls evs w)) = is_running (app w) && negb (has_quit evs) ∧
       forwarded calls = if is_running (app w) then before_quit evs else []).
Proof.
  revert w. induction evs as [|e evs IH]; intros w.
  { exists []. cbn. rewrite app_nil_r. repeat split.
    - apply not_elem_of_nil.
    - by rewrite andb_true_r.
    - by destruct (is_running (app w)). }
  rewrite GuiAppFacts.drain_cons.
  destruct (dispatch_calls cls e w) as (c1 & E1 & H1 & F1 & D1).
  destruct (IH (dispatch cls e w)) as (c2 & E2 & H2 & D2 & K2).
  exists (c1 ++ c2). split; [by rewrite E2, E1, app_assoc|].
  split; [|split; [by apply not_in_app|]].
  { rewrite handled_app, H1, H2, filter_cons. by destruct (decide (is_other e)). }
  intros Hk. destruct (K2 Hk) as [R2 F2].
  pose proof (dispatch_is_running cls e w Hk) as R1.
  rewrite R2, forwarded_app, F1, F2, R1, has_quit_cons. cbn [before_quit].
  destruct (is_running (app w)), (decide (type e = QUIT)) as [Hq|Hq]; cbn;
    rewrite ?bool_decide_true, ?bool_decide_false by done; cbn; done.
Qed.

(** The calls of one pass: the clock, the queue, the calls of the events,
    and, when the application is still running, those of one frame. *)
Lemma _main_loop_calls cls fr w :
  let drained := drain cls (events fr) (before_events fr w) in
  let time_delta := Py.truediv_float (Py.Int (tick_ms fr)) 1000 in
  let frame :=
    if is_running (app drained)
    then [manager_update time_delta; call_update time_delta;
          blit_background (background_surface (do_update cls time_delta (app drained)));
          manager_draw_ui; display_update]
    else [] in
  trace (_main_loop cls fr w) = trace drained ++ frame.
Proof.
  cbv zeta. rewrite GuiAppFacts._main_loop_unfold. cbv zeta.
  destruct (is_running _); cbn; [|by rewrite app_nil_r].
  by rewrite <- !app_assoc.
Qed.

Lemma before_events_trace fr w :
  trace (before_events fr w) = trace w ++ [clock_tick (framerate (app w)); event_get].
Proof. unfold before_events. cbn. by rewrite <- app_assoc. Qed.

(** X1.  Whatever the overriding methods are, and whether the application
    is running or not: the events one pass of the main loop hands to
    [handle_event] are exactly the events of the queue that are neither
    close nor resize events, each once and in the order of the queue, those
    behind a close event included. *)
Theorem handle_event_gets_other_events cls fr w :
  handled (calls_between w (_main_loop cls fr w)) = filter is_other (events fr).
Proof.
  destruct (drain_calls cls (events fr) (before_events fr w)) as (c & E & Hc & _).
  pose proof (_main_loop_calls cls fr w) as Hm. cbv zeta in Hm.
  rewrite E, before_events_trace, <- !app_assoc in Hm.
  rewrite (calls_between_app _ _ _ Hm), !handled_app, Hc.
  destruct (is_running _); cbn; by rewrite ?app_nil_r.
Qed.

(** X2.  With a [handle_event] that leaves [is_running] alone, the events
    one pass hands to the manager's [process_events] are the events of the
    queue before its first close event, resize events included, in the
    order of the queue; none when the application is not running. *)
Theorem manager_gets_events_before_quit cls fr w :
  handler_keeps_running cls →
  forwarded (calls_between w (_main_loop cls fr w)) =
    if is_running (app w) then before_quit (events fr) else [].
Proof.
  intros Hk.
  destruct (drain_calls cls (events fr) (before_events fr w)) as (c & E & _ & _ & K).
  destruct (K Hk) as [_ F].
  pose proof (_main_loop_calls cls fr w) as Hm. cbv zeta in Hm.
  rewrite E, before_events_trace, <- !app_assoc in Hm.
  rewrite (calls_between_app _ _ _ Hm), !forwarded_app, F.
  destruct (is_running (app (drain _ _ _))); cbn; by rewrite ?app_nil_r.
Qed.

Lemma _main_loop_is_running cls fr w :
  handler_keeps_running cls → update_keeps_running cls →
  is_running (app (_main_loop cls fr w)) =
    is_running (app w) && negb (has_quit (events fr)).
Proof.
  intros Hk Hu.
  destruct (drain_calls cls (events fr) (before_events fr w)) as (c & _ & _ & _ & K).
  destruct (K Hk) as [R _]. cbn in R.
  rewrite GuiAppFacts._main_loop_app, <- R. cbv zeta.
  destruct (is_running (app (drain _ _ _))) eqn:E; [|done].
  by rewrite Hu.
Qed.

Lemma while_is_running_first_quit cls frames w :
  handler_keeps_running cls → update_keeps_running cls →
  is_running (app w) = true →
  while_is_running cls frames w =
    match first_quit frames with
    | Some k => Returned (iterate cls (take (S k) frames) w)
    | None => Looping (iterate cls frames w)
    end.
Proof.
  intros Hk Hu. revert w. induction frames as [|fr frames IH]; intros w Hw.
  { cbn. by rewrite Hw. }
  cbn [while_is_running first_quit]. rewrite Hw.
  pose proof (_main_loop_is_running cls fr w Hk Hu) as Hr. rewrite Hw in Hr. cbn in Hr.
  destruct (has_quit (events fr)); cbn in Hr.
  - by rewrite GuiAppFacts.while_is_running_stopped.
  - rewrite (IH _ Hr). by destruct (first_quit frames).
Qed.

(** X5.  With methods that leave [is_running] alone, [run] on an
    application that is not running returns with the first pass whose queue
    has a close event: after [k + 1] passes when that is frame [k], with
    [is_running] cleared.  When no frame has a close event it is still
    looping after all of them. *)
Theorem run_returns_at_first_quit cls frames w :
  handler_keeps_running cls → update_keeps_running cls →
  is_running (app w) = false →
  let started := on_app (with_is_running true) w in
  match first_quit frames with
  | Some k =>
      run cls frames w = Returned (iterate cls (take (S k) frames) started) ∧
      is_running (app (iterate cls (take (S k) frames) started)) = false
  | None => run cls frames w = Looping (iterate cls frames started)
  end.
Proof.
  intros Hk Hu Hw started. unfold run. rewrite Hw. fold started.
  pose proof (while_is_running_first_quit cls frames started Hk Hu eq_refl) as E.
  destruct (first_quit frames) as [k|]; [|done]. split; [done|].
  pose proof (GuiAppFacts.while_is_running_returned cls frames started _ E)
    as (n & _ & _ & Hstop & _).
  done.
Qed.

Lemma dispatch_base_objects e (w : World U O) :
  _update_objects (app (dispatch base e w)) = _update_objects (app w) ∧
  attrs (app (dispatch base e w)) = attrs (app w).
Proof.
  destruct (decide (type e = QUIT)) as [Hq|Hq].
  { by rewrite (GuiAppFacts.dispatch_quit base e w Hq). }
  destruct (decide (type e = WINDOWRESIZED)) as [Hr|Hr].
  { by rewrite (GuiAppFacts.dispatch_resized base e w Hr). }
  by rewrite (GuiAppFacts.dispatch_other base e w Hq Hr).
Qed.

Lemma drain_base_objects evs (w : World U O) :
  _update_objects (app (drain base evs w)) = _update_objects (app w) ∧
  attrs (app (drain base evs w)) = attrs (app w).
Proof.
  revert w. induction evs as [|e evs IH]; intros w; [done|].
  rewrite GuiAppFacts.drain_cons.
  destruct (IH (dispatch base e w)) as [-> ->]. apply dispatch_base_objects.
Qed.

(** X4.  With GuiApp's own methods, one pass leaves [is_running] set
    exactly when it was set and the queue has no close event.  Then every
    registered update object has been updated once, with the seconds of the
    clock tick and in the order of registration; otherwise none has been.
    The attributes of a subclass stay as they are. *)
Theorem base_pass_updates_objects fr (w : World U O) :
  let time_delta := Py.truediv_float (Py.Int (tick_ms fr)) 1000 in
  let still_running := is_running (app w) && negb (has_quit (events fr)) in
  is_running (app (_main_loop base fr w)) = still_running ∧
  _update_objects (app (_main_loop base fr w)) =
    (if still_running then obj_update time_delta <$> _update_objects (app w)
     else _update_objects (app w)) ∧
  attrs (app (_main_loop base fr w)) = attrs (app w).
Proof.
  cbv zeta.
  assert (Hk : handler_keeps_running (U:=U) (O:=O) base) by done.
  assert (Hu : update_keeps_running (U:=U) (O:=O) base) by done.
  split; [by apply _main_loop_is_running|].
  destruct (drain_calls base (events fr) (before_events fr w)) as (c & _ & _ & _ & K).
  destruct (K Hk) as [R _]. cbn in R. rewrite <- R.
  destruct (drain_base_objects (events fr) (before_events fr w)) as [Eo Ea].
  cbn in Eo, Ea.
  rewrite GuiAppFacts._main_loop_app. cbv zeta.
  destruct (is_running (app (drain _ _ _))); cbn; by rewrite ?Eo, ?Ea.
Qed.

(** X3.  With a [handle_event] that leaves [is_running] alone: after the
    events of a pass come the manager's update, [update], the blit of the
    background, [draw_ui] and the display update, in this order, exactly
    when the application was running and the queue has no close event.
    Otherwise the pass ends with the events and the display is not
    updated. *)
Theorem frame_drawn_iff_no_quit cls fr w :
  handler_keeps_running cls →
  let drained := drain cls (events fr) (before_events fr w) in
  let time_delta := Py.truediv_float (Py.Int (tick_ms fr)) 1000 in
  calls_between drained (_main_loop cls fr w) =
    (if is_running (app w) && negb (has_quit (events fr))
     then [manager_update time_delta; call_update time_delta;
           blit_background (background_surface (do_update cls time_delta (app drained)));
           manager_draw_ui; display_update]
     else []) ∧
  (display_update ∈ calls_between w (_main_loop cls fr w) ↔
   is_running (app w) = true ∧ has_quit (events fr) = false).
Proof.
  intros Hk. cbv zeta. pose proof (_main_loop_calls cls fr w) as Hm. cbv zeta in Hm.
  destruct (drain_calls cls (events fr) (before_events fr w)) as (c & E & _ & D & K).
  destruct (K Hk) as [R _]. cbn in R. rewrite <- R.
  split; [by apply calls_between_app|].
  rewrite E, before_events_trace, <- !app_assoc in Hm.
  rewrite (calls_between_app _ _ _ Hm).
  assert (Hrun : is_running (app w) = true ∧ has_quit (events fr) = false ↔
                 is_running (app (drain cls (events fr) (before_events fr w))) = true).
  { rewrite R. destruct (is_running (app w)), (has_quit (events fr)); cbn; intuition congruence. }
  rewrite Hrun. clear Hrun R.
  destruct (is_running (app (drain _ _ _))).
  - split; [done|]. intros _. rewrite !elem_of_app, !elem_of_cons. tauto.
  - split; [|done]. rewrite app_nil_r. intros [Hin|Hin]%elem_of_app; [|done].
    revert Hin. not_among.
Qed.

End WithMethods.

Lemma manager_gets_events_before_quit_witness :
  handler_keeps_running (U:=unit) (O:=unit) base ∧
  forwarded (calls_between started (_main_loop base frame_close started)) =
    (if is_running (app started) then before_quit (events frame_close) else []).
Proof.
  assert (Hk : handler_keeps_running (U:=unit) (O:=unit) base) by (intros e self; reflexivity).
  split; [exact Hk|].
  exact (manager_gets_events_before_quit base frame_close started Hk).
Defined.

Lemma frame_drawn_iff_no_quit_witness :
  let drained := drain base (events frame_close) (before_events frame_close started) in
  let time_delta := Py.truediv_float (Py.Int (tick_ms frame_close)) 1000 in
  handler_keeps_running (U:=unit) (O:=unit) base ∧
  calls_between drained (_main_loop base frame_close started) =
    (if is_running (app started) && negb (has_quit (events frame_close))
     then [manager_update time_delta; call_update time_delta;
           blit_background (background_surface (do_update base time_delta (app drained)));
           manager_draw_ui; display_update]
     else []) ∧
  (display_update ∈ calls_between started (_main_loop base frame_close started) ↔
   is_running (app started) = true ∧ has_quit (events frame_close) = false).
Proof.
  cbv zeta.
  assert (Hk : handler_keeps_running (U:=unit) (O:=unit) base) by (intros e self; reflexivity).
  split; [exact Hk|].
  exact (frame_drawn_iff_no_quit base frame_close started Hk).
Defined.

Lemma run_returns_at_first_quit_witness :
  handler_keeps_running (U:=unit) (O:=unit) base ∧
  update_keeps_running (U:=unit) (O:=unit) base ∧
  is_running (app fresh) = false ∧
  match first_quit [frame_idle; frame_close; frame_idle] with
  | Some k =>
      run base [frame_idle; frame_close; frame_idle] fresh =
        Returned (iterate base (take (S k) [frame_idle; frame_close; frame_idle])
                          (on_app (with_is_running true) fresh)) ∧
      is_running (app (iterate base (take (S k) [frame_idle; frame_close; frame_idle])
                          (on_app (with_is_running true) fresh))) = false
  | None =>
      run base [frame_idle; frame_close; frame_idle] fresh =
        Looping (iterate base [frame_idle; frame_close; frame_idle]
                         (on_app (with_is_running true) fresh))
  end.
Proof.
  assert (Hk : handler_keeps_running (U:=unit) (O:=unit) base) by (intros e self; reflexivity).
  assert (Hu : update_keeps_running (U:=unit) (O:=unit) base) by (intros d self; reflexivity).
  split; [exact Hk|]. split; [exact Hu|]. split; [reflexivity|].
  exact (run_returns_at_first_quit base [frame_idle; frame_close; frame_idle] fresh
           Hk Hu eq_refl).
Defined.

Lemma run_sizes_agree_witness :
  let frames := [frame_idle; frame_resize; mkFrame 16 (800, 600) [close]] in
  methods_keep_sizes (U:=unit) (O:=unit) base ∧ sizes_agree (app fresh) ∧
  resizes_announced frames (size (app fresh)) ∧
  sizes_agree (app (outcome_world (run base frames fresh))).
Proof.
  cbv zeta.
  assert (Hk : methods_keep_sizes (U:=unit) (O:=unit) base)
    by apply GuiAppFacts.base_keeps_sizes.
  assert (Hs : sizes_agree (app fresh)) by (split; reflexivity).
  assert (Hr : resizes_announced [frame_idle; frame_resize; mkFrame 16 (800, 600) [close]]
                 (size (app fresh))).
  { split; [by left|]. split; [|split; [by left|done]].
    right. exists resized. split; [|done]. apply list_elem_of_further, list_elem_of_here. }
  split; [exact Hk|]. split; [exact Hs|]. split; [exact Hr|].
  exact (GuiAppFacts.run_sizes_agree base
           [frame_idle; frame_resize; mkFrame 16 (800, 600) [close]] fresh Hk Hs Hr).
Defined.

End GuiAppTraceFacts.

Module ThreePanelLayoutFacts.
Import Pygame ThreePanelApp Examples.

Lemma gt_Int (a b : Z) : Py.gt (Py.Int a) (Py.Int b) = bool_decide (b < a).
Proof.
  unfold Py.gt, Py.compare. destruct (Z.compare_spec a b); cbn;
    by rewrite ?bool_decide_true, ?bool_decide_false by lia.
Qed.

Lemma le_Int (a b : Z) : Py.le (Py.Int a) (Py.Int b) = bool_decide (a ≤ b).
Proof.
  unfold Py.le, Py.compare. destruct (Z.compare_spec a b); cbn;
    by rewrite ?bool_decide_true, ?bool_decide_false by lia.
Qed.

Section WithUpdateObjects.
Context {O : Type} `{GuiApp.IUpdateObject O}.

(** X7.  Heights in pixels, given as ints.  When [top + bottom] exceeds
    the window height the constructor raises 'Total is > window height',
    with none of its own attributes assigned; when [top + bottom] is the
    window height it raises 'No room for middle panel', with margins and
    heights assigned but no panel; otherwise it returns, and the panels
    have the heights [top], [bottom] and the window height less
    [top + bottom].  Nothing else is refused, a height below zero
    included. *)
Theorem pixel_layout args (top bottom : Z) margins :
  let H := snd (GuiApp.arg_window_size args) in
  let self0 : App (O:=O) := GuiApp.__init__ args unassigned in
  let assigned :=
    GuiApp.with_attrs
      (mkAttrs (Some margins) (Some (Py.Int top)) (Some (Py.Int bottom)) None None None)
      self0 in
  match __init__ args (Py.Int top) (Py.Int bottom) false margins with
  | Raises msg self =>
      (H < top + bottom ∧
       msg = "Panels will not fit. Total is > window height." ∧ self = self0) ∨
      (top + bottom = H ∧
       msg = "Panels will not fit. No room for middle panel." ∧ self = assigned)
  | Returns self =>
      top + bottom < H ∧
      panel_heights self = Some (top, bottom, H - (top + bottom))
  end.
Proof.
  intros Hh self0 assigned.
  destruct (ThreePanelAppFacts.__init___cases (O:=O) args (Py.Int top) (Py.Int bottom)
              false margins)
    as [([? _] & _)|[(_ & [_ R2] & E)|[(_ & N2 & R3 & E)|(_ & N2 & N3 & self & E & _ & P)]]];
    [done|rewrite E..].
  - left. unfold window_height in R2. cbn in R2. rewrite gt_Int in R2.
    apply bool_decide_eq_true in R2. done.
  - right. unfold rejects_pixels, rejects_middle, middle_height, resolve, window_height in *.
    cbn in N2, R3. rewrite gt_Int in N2. rewrite le_Int in R3.
    apply bool_decide_eq_true in R3.
    assert (¬ (snd (GuiApp.arg_window_size args) < top + bottom)).
    { intros ?. apply N2. split; [done|]. by apply bool_decide_eq_true. }
    split; [unfold Hh; lia|done].
  - unfold rejects_pixels, rejects_middle, middle_height, resolve, window_height in *.
    cbn in N2, N3, P. rewrite gt_Int in N2. rewrite le_Int in N3.
    split; [|exact P].
    assert (¬ (snd (GuiApp.arg_window_size args) - top - bottom ≤ 0)).
    { intros ?. apply N3. by apply bool_decide_eq_true. }
    unfold Hh. lia.
Qed.

End WithUpdateObjects.

End ThreePanelLayoutFacts.

Module UIImageTiledHeapFacts.
Import Pygame UIImageTiled UIImageTiledHeap Examples.

Lemma keeps_ret {A : Type} n (a : A) (Q : A → Prop) : Q a → keeps n (mret a) Q.
Proof. intros Ha h Hn. repeat split; [done|]. by intros a' h' [= <- <-]. Qed.

Lemma keeps_raise {A : Type} n e (Q : A → Prop) : keeps n (raise e) Q.
Proof. intros h Hn. by repeat split. Qed.

Lemma keeps_bind {A B : Type} n (m : M A) (f : A → M B) Q R :
  keeps n m Q → (∀ a, Q a → keeps n (f a) R) → keeps n (m ≫= f) R.
Proof.
  intros Hm Hf h Hn. destruct (Hm h Hn) as (T & L & Hq).
  unfold mbind, M_bind. destruct (m h) as [a h1|e h1] eqn:E; cbn in T, L.
  - destruct (Hf a (Hq a h1 eq_refl) h1 ltac:(lia)) as (T' & L' & Hr).
    split; [congruence|]. split; [lia|done].
  - by repeat split.
Qed.

Lemma keeps_weaken {A : Type} n (m : M A) (Q R : A → Prop) :
  keeps n m Q → (∀ a, Q a → R a) → keeps n m R.
Proof.
  intros Hm HQR h Hn. destruct (Hm h Hn) as (T & L & Hq).
  repeat split; [done..|]. intros a h' E. eauto.
Qed.

Lemma keeps_alloc n s : keeps n (alloc s) (λ r, (n ≤ r)%nat).
Proof.
  intros h Hn. unfold alloc. cbn. split; [by rewrite take_app_le|].
  split; [rewrite length_app; lia|]. by intros a h' [= <- <-].
Qed.

Lemma keeps_deref n r : keeps n (deref r) (λ _, True).
Proof. intros h Hn. unfold deref. by destruct (_ !! _). Qed.

Lemma keeps_store n r s : (n ≤ r)%nat → keeps n (store r s) (λ _, True).
Proof.
  intros Hr h Hn. unfold store, heap_of.
  split; [by apply take_insert_ge|]. split; [|done].
  apply Nat.eq_le_incl. symmetry. apply length_insert.
Qed.

Lemma keeps_for_each {A : Type} n (l : list A) (body : A → M unit) :
  (∀ a, keeps n (body a) (λ _, True)) → keeps n (for_each l body) (λ _, True).
Proof.
  intros Hb. induction l as [|a l IH]; cbn [for_each].
  - by apply keeps_ret.
  - eapply keeps_bind; [apply Hb|]. intros _ _. apply IH.
Qed.

Lemma keeps_range n stop step : keeps n (range stop step) (λ _, True).
Proof.
  unfold range. destruct (Py.range0 stop step); [by apply keeps_ret|apply keeps_raise].
Qed.

Lemma keeps_Surface_new n size : keeps n (Surface_new size) (λ r, (n ≤ r)%nat).
Proof.
  unfold Surface_new. destruct (decide _); [apply keeps_raise|apply keeps_alloc].
Qed.

Lemma keeps_blit n dst src pos :
  (n ≤ dst)%nat → keeps n (blit dst src pos) (λ _, True).
Proof.
  intros Hd. unfold blit.
  eapply keeps_bind; [apply keeps_deref|]. intros d _.
  eapply keeps_bind; [apply keeps_deref|]. intros s _.
  by apply keeps_store.
Qed.

Lemma keeps_convert_alpha n surface :
  keeps n (convert_alpha surface) (λ r, (n ≤ r)%nat).
Proof.
  unfold convert_alpha. destruct surface; [|apply keeps_raise].
  eapply keeps_bind; [apply keeps_deref|]. intros s _. apply keeps_alloc.
Qed.

Lemma keeps_premul_alpha_surface n surface :
  (n ≤ surface)%nat →
  keeps n (premul_alpha_surface surface) (λ o, o = Some surface).
Proof.
  intros Hs. unfold premul_alpha_surface.
  eapply keeps_bind; [apply keeps_deref|]. intros s _.
  eapply keeps_bind; [by apply keeps_store|]. intros _ _.
  by apply keeps_ret.
Qed.

Lemma keeps_smoothscale n surface size :
  keeps n (smoothscale surface size) (λ r, (n ≤ r)%nat).
Proof.
  unfold smoothscale. destruct surface; [|apply keeps_raise].
  eapply keeps_bind; [apply keeps_deref|]. intros s _.
  destruct (decide _); [apply keeps_raise|apply keeps_alloc].
Qed.

Lemma keeps_create_tiled_surface n self :
  keeps n (create_tiled_surface self) (λ _, True).
Proof.
  unfold create_tiled_surface. destruct (_tile self) as [tile_ref|]; [|by apply keeps_ret].
  eapply keeps_bind; [apply keeps_deref|]. intros tile _.
  destruct (rect_size self) as [panel_width panel_height].
  destruct (decide _); [by apply keeps_ret|].
  eapply keeps_bind; [apply keeps_Surface_new|]. intros new_surface Hnew. cbn in Hnew.
  eapply keeps_bind; [apply keeps_range|]. intros ys _.
  eapply keeps_bind; [|intros _ _; by apply keeps_ret].
  apply keeps_for_each. intros y.
  eapply keeps_bind; [apply keeps_range|]. intros xs _.
  apply keeps_for_each. intros x. by apply keeps_blit.
Qed.

Lemma keeps_set_image n new_image self :
  keeps n (set_image new_image self) (λ _, True).
Proof.
  unfold set_image, copy. destruct new_image as [r|]; [|by apply keeps_ret].
  eapply keeps_bind; [|intros image _; by apply keeps_ret].
  eapply keeps_bind; [apply keeps_deref|]. intros s _.
  eapply keeps_weaken; [apply keeps_alloc|done].
Qed.

Lemma keeps___init__ n size image_surface :
  keeps n (__init__ size image_surface) (λ _, True).
Proof.
  unfold __init__.
  eapply keeps_bind; [apply keeps_create_tiled_surface|]. intros tiled _.
  eapply keeps_bind; [apply keeps_convert_alpha|]. intros converted Hc. cbn in Hc.
  eapply keeps_bind; [by apply keeps_premul_alpha_surface|]. intros o ->.
  eapply keeps_bind; [apply keeps_deref|]. intros s _.
  destruct (decide _).
  - eapply keeps_bind; [apply keeps_smoothscale|]. intros scaled _.
    apply keeps_set_image.
  - apply keeps_set_image.
Qed.

Lemma keeps_set_dimensions n dimensions self :
  keeps n (set_dimensions dimensions self) (λ _, True).
Proof.
  unfold set_dimensions.
  eapply keeps_bind.
  { instantiate (1 := λ _, True). cbn. destruct (image self); [apply keeps_deref|apply keeps_raise]. }
  intros img _. destruct (decide _); [|by apply keeps_ret].
  eapply keeps_bind; [apply keeps_create_tiled_surface|]. intros tiled _.
  eapply keeps_bind; [apply keeps_convert_alpha|]. intros converted Hc. cbn in Hc.
  eapply keeps_bind; [by apply keeps_premul_alpha_surface|]. intros o ->.
  apply keeps_set_image.
Qed.

Lemma keeps_extends {A : Type} (m : M A) Q h :
  keeps (length h) m Q → ∃ new, heap_of (m h) = h ++ new.
Proof.
  intros Hm. destruct (Hm h ltac:(done)) as (T & L & _).
  exists (drop (length h) (heap_of (m h))).
  rewrite firstn_all in T.
  transitivity (take (length h) (heap_of (m h)) ++ drop (length h) (heap_of (m h)));
    [symmetry; apply take_drop|by rewrite T].
Qed.

(** X9.  [create_tiled_surface], the constructor and [set_dimensions]
    never change a surface that existed before the call, whether they
    return or raise: the heap afterwards is the heap before, followed by
    the surfaces the call has made.  The tile and the image shown before
    are among the surfaces left alone; what is drawn on or premultiplied
    is a surface of the call's own. *)
Theorem surfaces_are_never_modified (self : t) (size : Size)
    (image_surface : option Ref) (h : Heap) :
  (∃ new, heap_of (create_tiled_surface self h) = h ++ new) ∧
  (∃ new, heap_of (__init__ size image_surface h) = h ++ new) ∧
  (∃ new, heap_of (set_dimensions size self h) = h ++ new).
Proof.
  split; [|split]; eapply keeps_extends.
  - apply keeps_create_tiled_surface.
  - apply keeps___init__.
  - apply keeps_set_dimensions.
Qed.

(** Converting and premultiplying what [create_tiled_surface] has
    returned, whatever that is. *)
Lemma finish_cases {A : Type} (h : Heap) (tiled : option Ref) (k : option Ref → M A) :
  (converted ← convert_alpha tiled; premul ← premul_alpha_surface converted; k premul) h =
    match tiled ≫= (h !!.) with
    | Some s => k (Some (length h)) (h ++ [finished (get_size s) (pixels s)])
    | None => Exn AttributeError h
    end.
Proof.
  destruct tiled as [r|]; [|done]. cbn [mbind option_bind].
  destruct (h !! r) as [s|] eqn:Hr; [by apply UIImageTiledFacts.finish_val|].
  unfold mbind at 1, M_bind at 1, convert_alpha, mbind at 1, M_bind at 1, deref.
  by rewrite Hr.
Qed.

Lemma smoothscale_cases (h : Heap) (r : Ref) (s : Surface) (size : Size) :
  h !! r = Some s →
  smoothscale (Some r) size h =
    if decide (fst size < 0 ∨ snd size < 0) then Exn ValueError h
    else Val (length h) (h ++ [mkSurface size (SmoothScale (pixels s) (get_size s) size)]).
Proof.
  intros Hr. unfold smoothscale.
  erewrite UIImageTiledFacts.bind_val by (by apply UIImageTiledFacts.deref_val).
  by destruct (decide _).
Qed.

Lemma create_tiled_surface_grows (self : t) (h : Heap) (tiled : option Ref) (h1 : Heap) :
  create_tiled_surface self h = Val tiled h1 → (length h ≤ length h1)%nat.
Proof.
  intros E. destruct (keeps_create_tiled_surface (length h) self h ltac:(done)) as (_ & L & _).
  by rewrite E in L.
Qed.

(** X10.  When the constructor returns, the image it has installed is a
    surface made by the call, never the tile itself.  When
    [set_dimensions] returns, either nothing but the rectangle has changed
    and no surface was made, or the original image is a surface made by
    the call and the image is another, made after it, of the same size and
    pixels: the fall back to [_pre_clipped_image] or to the image shown
    before is never taken. *)
Theorem installed_image_is_new (self : t) (size : Size) (image_surface : option Ref)
    (h : Heap) :
  match __init__ size image_surface h with
  | Val self' h' =>
      ∃ r s, image self' = Some r ∧ (length h ≤ r)%nat ∧ h' !! r = Some s ∧
             _tile self' = image_surface ∧ rect_size self' = size
  | Exn _ _ => True
  end ∧
  match set_dimensions size self h with
  | Val self' h' =>
      (self' = with_rect_size size self ∧ h' = h) ∨
      ∃ r o s, image self' = Some r ∧ original_image self' = Some o ∧
               (length h ≤ o < r)%nat ∧ h' !! o = Some s ∧ h' !! r = Some s ∧
               _tile self' = _tile self ∧ rect_size self' = size
  | Exn _ _ => True
  end.
Proof.
  split.
  - unfold __init__. unfold mbind at 1, M_bind at 1.
    destruct (create_tiled_surface _ h) as [tiled h1|e h1] eqn:Hc; [|done].
    apply create_tiled_surface_grows in Hc.
    rewrite finish_cases. destruct (tiled ≫= (h1 !!.)) as [st|]; [|done].
    set (premultiplied := finished (get_size st) (pixels st)).
    erewrite UIImageTiledFacts.bind_val
      by apply UIImageTiledFacts.deref_val, UIImageTiledFacts.lookup_new.
    destruct (decide _) as [Hd|Hd].
    + cbn [original_image with_original_image rect_size with_tile].
      unfold mbind at 1, M_bind at 1.
      rewrite (smoothscale_cases _ _ premultiplied) by apply UIImageTiledFacts.lookup_new.
      destruct (decide _); [done|].
      erewrite UIImageTiledFacts.set_image_val by apply UIImageTiledFacts.lookup_new.
      eexists _, _. split; [reflexivity|]. split; [rewrite !length_app; cbn; lia|].
      split; [apply UIImageTiledFacts.lookup_new|done].
    + erewrite UIImageTiledFacts.set_image_val by apply UIImageTiledFacts.lookup_new.
      eexists _, _. split; [reflexivity|]. split; [rewrite !length_app; cbn; lia|].
      split; [apply UIImageTiledFacts.lookup_new|done].
  - unfold set_dimensions. cbn [image with_rect_size].
    destruct (image self) as [img|] eqn:Himg; [|done].
    unfold mbind at 1, M_bind at 1, deref.
    destruct (h !! img) as [old|]; [|done].
    destruct (decide _) as [Hd|Hd]; [|by left].
    unfold mbind at 1, M_bind at 1.
    destruct (create_tiled_surface _ h) as [tiled h1|e h1] eqn:Hc; [|done].
    apply create_tiled_surface_grows in Hc.
    cbn [with_original_image original_image].
    rewrite finish_cases. destruct (tiled ≫= (h1 !!.)) as [st|]; [|done].
    set (premultiplied := finished (get_size st) (pixels st)).
    cbn [with_original_image original_image _pre_clipped_image image rect_size _tile].
    erewrite UIImageTiledFacts.set_image_val by apply UIImageTiledFacts.lookup_new.
    right. exists (length (h1 ++ [premultiplied])), (length h1), premultiplied.
    split; [done|]. split; [done|]. split; [rewrite length_app; cbn; lia|].
    split; [|split; [apply UIImageTiledFacts.lookup_new|done]].
    apply UIImageTiledFacts.lookup_old, UIImageTiledFacts.lookup_new.
Qed.

(** X11.  [None] as the image: the constructor raises [AttributeError]
    and makes no surface.  For a widget whose tile is [None],
    [create_tiled_surface] returns [None], and [set_dimensions] to a size
    other than that of the image raises [AttributeError] and makes no
    surface. *)
Theorem none_image_raises (size : Size) (self : t) (h : Heap) (old : Surface) :
  __init__ size None h = Exn AttributeError h ∧
  (_tile self = None → shown self h = Some old → get_size old ≠ size →
   create_tiled_surface (with_rect_size size self) h = Val None h ∧
   set_dimensions size self h = Exn AttributeError h).
Proof.
  split; [reflexivity|]. intros Ht Hold Hsz.
  assert (Hc : create_tiled_surface (with_rect_size size self) h = Val None h).
  { unfold create_tiled_surface. cbn. by rewrite Ht. }
  split; [done|]. unfold set_dimensions.
  unfold shown in Hold. destruct (image self) as [img|] eqn:Himg; [|done].
  cbn in Hold. cbn [image with_rect_size]. rewrite Himg.
  erewrite UIImageTiledFacts.bind_val by (by apply UIImageTiledFacts.deref_val).
  rewrite decide_True by (cbn; congruence).
  by erewrite UIImageTiledFacts.bind_val by exact Hc.
Qed.

Lemma bind_exn {A B : Type} (m : M A) (f : A → M B) h e h' :
  m h = Exn e h' → (m ≫= f) h = Exn e h'.
Proof. unfold mbind, M_bind. by intros ->. Qed.

Lemma range0_zero_step stop : Py.range0 stop 0 = None.
Proof. reflexivity. Qed.

Lemma range0_first stop step :
  0 < step → 0 < stop → ∃ l, Py.range0 stop step = Some (0 :: l).
Proof.
  intros Hstep Hstop. unfold Py.range0.
  rewrite decide_False by lia. rewrite decide_True by lia.
  assert (Hq : 1 ≤ (stop + step - 1) / step).
  { apply Z.div_le_lower_bound; lia. }
  destruct (Z.to_nat ((stop + step - 1) / step)) as [|n] eqn:E; [lia|].
  cbn. by eexists.
Qed.

(** X12.  A tile of width 0 or of height 0 in a target of positive width
    and height: [create_tiled_surface] raises [ValueError] (a [range] with
    step 0), after it has made the new surface, which stays blank; the
    constructor raises with it. *)
Theorem empty_tile_raises (h : Heap) (r : Ref) (tile : Surface) (W H : Z) :
  h !! r = Some tile → 0 ≤ get_width tile → 0 ≤ get_height tile →
  get_width tile = 0 ∨ get_height tile = 0 →
  0 < W → 0 < H →
  create_tiled_surface (mk (W, H) (Some r) None None None) h =
    Exn ValueError (h ++ [mkSurface (W, H) Blank]) ∧
  __init__ (W, H) (Some r) h = Exn ValueError (h ++ [mkSurface (W, H) Blank]).
Proof.
  intros Hr Hw Hh Hz HW HH.
  assert (Hc : create_tiled_surface (mk (W, H) (Some r) None None None) h =
               Exn ValueError (h ++ [mkSurface (W, H) Blank])).
  { unfold create_tiled_surface. cbn [_tile rect_size].
    erewrite UIImageTiledFacts.bind_val by (by apply UIImageTiledFacts.deref_val).
    rewrite decide_False by lia.
    unfold Surface_new. cbn [fst snd]. rewrite decide_False by lia.
    erewrite UIImageTiledFacts.bind_val by reflexivity.
    destruct (decide (get_width tile = 0)) as [Hw0|Hw0].
    - unfold mbind, M_bind, range. by rewrite Hw0, range0_zero_step.
    - destruct (range0_first H (get_width tile)) as [ys Hys]; [lia..|].
      erewrite UIImageTiledFacts.bind_val by (unfold range; by rewrite Hys).
      assert (Hh0 : get_height tile = 0) by tauto.
      cbn [for_each]. unfold mbind, M_bind, range. by rewrite Hh0, range0_zero_step. }
  split; [exact Hc|]. unfold __init__. apply bind_exn. exact Hc.
Qed.

(** X13.  For a tile of positive width and height and a target of any width
    and height from 0 on, the constructor returns, for the tile it was
    given, and what it shows has exactly the size of the rectangle.  It
    keeps an original image, the one it has rescaled, exactly when the
    target is the transposed size of a tile that is not square. *)
Theorem constructor_image_fits (h : Heap) (r : Ref) (tile : Surface) (W H : Z) :
  h !! r = Some tile → 0 < get_width tile → 0 < get_height tile →
  0 ≤ W → 0 ≤ H →
  ∃ self h' s,
    __init__ (W, H) (Some r) h = Val self h' ∧
    rect_size self = (W, H) ∧ _tile self = Some r ∧
    shown self h' = Some s ∧ get_size s = (W, H) ∧
    (is_Some (original_image self) ↔
     W = get_height tile ∧ H = get_width tile ∧ get_width tile ≠ get_height tile).
Proof.
  intros Hr Hw Hh HW HH.
  destruct (decide (W = get_height tile ∧ H = get_width tile)) as [[-> ->]|Hne].
  - pose proof (UIImageTiledFacts.__init___keeps_tile h r tile Hr ltac:(lia) ltac:(lia)) as Hi.
    cbv zeta in Hi.
    destruct (decide (get_width tile = get_height tile)) as [Hsq|Hsq].
    + eexists _, _, _. split; [exact Hi|]. split; [done|]. split; [done|].
      split; [by apply UIImageTiledFacts.shown_new|]. split.
      * cbn. unfold get_width, get_height in *. destruct (get_size tile). cbn in *.
        by subst.
      * cbn. split; [by intros [? ?]|]. tauto.
    + eexists _, _, _. split; [exact Hi|]. split; [done|]. split; [done|].
      split; [by apply UIImageTiledFacts.shown_new|]. split; [done|].
      cbn. split; [done|]. intros _. by eexists.
  - destruct (PyFacts.range0_Some W (get_height tile)) as [xs Hxs]; [lia|].
    destruct (PyFacts.range0_Some H (get_width tile)) as [ys Hys]; [lia|].
    eexists _, _, _.
    split; [by apply (UIImageTiledFacts.__init___composes h r tile W H xs ys)|].
    split; [done|]. split; [done|].
    split; [by apply UIImageTiledFacts.shown_new|]. split; [done|].
    cbn. split; [by intros [? ?]|]. tauto.
Qed.

(** X14.  Outside the transposed size of a tile that is not square,
    [set_dimensions] leaves the widget with an image of the size of its
    rectangle, and a second [set_dimensions] to the same size changes
    nothing: not the widget, and no surface is made. *)
Theorem set_dimensions_again_does_nothing (h : Heap) (r : Ref) (tile old : Surface)
    (self0 : t) (W H : Z) :
  h !! r = Some tile → 0 < get_width tile → 0 < get_height tile →
  0 ≤ W → 0 ≤ H →
  get_width tile = get_height tile ∨ ¬ (W = get_height tile ∧ H = get_width tile) →
  _tile self0 = Some r → shown self0 h = Some old →
  ∃ self h1 s,
    set_dimensions (W, H) self0 h = Val self h1 ∧
    shown self h1 = Some s ∧ get_size s = (W, H) ∧ rect_size self = (W, H) ∧
    set_dimensions (W, H) self h1 = Val self h1.
Proof.
  intros Hr Hw Hh HW HH Hcase Ht Hold.
  assert (Hagain : ∀ self h1 s, shown self h1 = Some s → get_size s = (W, H) →
            rect_size self = (W, H) → set_dimensions (W, H) self h1 = Val self h1).
  { intros self h1 s Hs Hsz Hrect.
    rewrite (UIImageTiledFacts.set_dimensions_same_size h1 self s (W, H) Hs Hsz).
    f_equal. destruct self. cbn in Hrect. by subst. }
  destruct (decide (get_size old = (W, H))) as [Heq|Hneq].
  { exists (with_rect_size (W, H) self0), h, old.
    split; [exact (UIImageTiledFacts.set_dimensions_same_size h self0 old (W, H) Hold Heq)|].
    split; [done|]. split; [done|]. split; [done|]. by apply (Hagain _ _ old). }
  destruct (decide (W = get_height tile ∧ H = get_width tile)) as [[-> ->]|Hne].
  - destruct Hcase as [Hsq|?]; [|tauto].
    eexists _, _, _.
    split; [exact (UIImageTiledFacts.set_dimensions_keeps_tile h self0 r tile old
                     Ht Hr Hold Hneq)|].
    assert (Hsz : get_size (finished (get_size tile) (pixels tile)) =
                  (get_height tile, get_width tile)).
    { cbn. unfold get_width, get_height in *. destruct (get_size tile). cbn in *. by subst. }
    split; [by apply UIImageTiledFacts.shown_new|]. split; [done|]. split; [done|].
    eapply Hagain; [by apply UIImageTiledFacts.shown_new|done..].
  - destruct (PyFacts.range0_Some W (get_height tile)) as [xs Hxs]; [lia|].
    destruct (PyFacts.range0_Some H (get_width tile)) as [ys Hys]; [lia|].
    eexists _, _, _.
    split; [by apply (UIImageTiledFacts.set_dimensions_composes h self0 r tile old W H xs ys)|].
    split; [by apply UIImageTiledFacts.shown_new|].
    split; [done|]. split; [done|].
    eapply Hagain; [by apply UIImageTiledFacts.shown_new|done..].
Qed.

(** X15.  Where the tile is replicated: a square tile is drawn over every
    pixel of the target.  A tile that is higher than wide leaves the pixel
    at x = the tile's width, y = 0 undrawn when the target is wider than the
    tile; a tile that is wider than high leaves the pixel at x = 0, y = the
    tile's height undrawn when the target is higher than the tile. *)
Theorem tiles_cover_target_iff_square (h : Heap) (self : t) (r : Ref) (tile : Surface)
    (W H : Z) :
  _tile self = Some r → h !! r = Some tile → rect_size self = (W, H) →
  0 < get_width tile → 0 < get_height tile → 0 ≤ W → 0 ≤ H →
  ¬ (W = get_height tile ∧ H = get_width tile) →
  ∃ h' s,
    create_tiled_surface self h = Val (Some (length h)) h' ∧
    h' !! length h = Some s ∧ get_size s = (W, H) ∧
    (get_width tile = get_height tile →
     ∀ px py, 0 ≤ px < W → 0 ≤ py < H → covered tile s px py) ∧
    (get_width tile < get_height tile → get_width tile < W → 0 < H →
     ¬ covered tile s (get_width tile) 0) ∧
    (get_height tile < get_width tile → get_height tile < H → 0 < W →
     ¬ covered tile s 0 (get_height tile)).
Proof.
  intros Ht Hr Hsz Hw Hh HW HH Hne.
  destruct (PyFacts.range0_Some W (get_height tile)) as [xs Hxs]; [lia|].
  destruct (PyFacts.range0_Some H (get_width tile)) as [ys Hys]; [lia|].
  destruct (UIImageTiledFacts.create_tiled_surface_offsets h self r tile W H xs ys)
    as (h' & s & E & L & S & B); try done.
  assert (Hcov : ∀ px py, covered tile s px py ↔
            ∃ i j, 0 ≤ i ∧ 0 ≤ j ∧ i * get_height tile < W ∧ j * get_width tile < H ∧
                   i * get_height tile ≤ px < i * get_height tile + get_width tile ∧
                   j * get_width tile ≤ py < j * get_width tile + get_height tile).
  { intros px py. unfold covered, paints. rewrite B.
    change (fst (get_size tile)) with (get_width tile).
    change (snd (get_size tile)) with (get_height tile). split.
    - intros ([x y] & Hin & Hx & Hy). cbn [fst snd] in Hx, Hy.
      apply UIImageTiledFacts.grid_elem in Hin as [Hinx Hiny].
      apply (PyFacts.range0_elem W (get_height tile) xs x Hh Hxs) in Hinx
        as (i & Hi & -> & HiW).
      apply (PyFacts.range0_elem H (get_width tile) ys y Hw Hys) in Hiny
        as (j & Hj & -> & HjH).
      by exists i, j.
    - intros (i & j & Hi & Hj & HiW & HjH & Hx & Hy).
      exists (i * get_height tile, j * get_width tile). split; [|done].
      apply UIImageTiledFacts.grid_elem. split.
      + apply (PyFacts.range0_elem W (get_height tile) xs _ Hh Hxs). by exists i.
      + apply (PyFacts.range0_elem H (get_width tile) ys _ Hw Hys). by exists j. }
  exists h', s. repeat (split; [done|]). split; [|split].
  - intros Hsq px py Hpx Hpy. apply Hcov. rewrite <- Hsq.
    exists (px / get_width tile), (py / get_width tile).
    pose proof (Z.div_mod px (get_width tile) ltac:(lia)).
    pose proof (Z.mod_pos_bound px (get_width tile) Hw).
    pose proof (Z.div_mod py (get_width tile) ltac:(lia)).
    pose proof (Z.mod_pos_bound py (get_width tile) Hw).
    assert (0 ≤ px / get_width tile) by (apply Z.div_pos; lia).
    assert (0 ≤ py / get_width tile) by (apply Z.div_pos; lia).
    repeat split; nia.
  - intros Hlt HwW HH0 (i & j & Hi & Hj & _ & _ & Hx & _)%Hcov.
    destruct (decide (i = 0)) as [->|Hi0]; [lia|].
    assert (1 * get_height tile ≤ i * get_height tile)
      by (apply Z.mul_le_mono_nonneg_r; lia).
    lia.
  - intros Hlt HhH HW0 (i & j & Hi & Hj & _ & _ & _ & Hy)%Hcov.
    destruct (decide (j = 0)) as [->|Hj0]; [lia|].
    assert (1 * get_width tile ≤ j * get_width tile)
      by (apply Z.mul_le_mono_nonneg_r; lia).
    lia.
Qed.

Lemma none_image_raises_witness :
  let h := [mkSurface (4, 4) Blank] in
  let self := mk (4, 4) None None (Some 0%nat) None in
  __init__ (5, 5) None h = Exn AttributeError h ∧
  _tile self = None ∧ shown self h = Some (mkSurface (4, 4) Blank) ∧
  get_size (mkSurface (4, 4) Blank) ≠ (5, 5) ∧
  create_tiled_surface (with_rect_size (5, 5) self) h = Val None h ∧
  set_dimensions (5, 5) self h = Exn AttributeError h.
Proof.
  cbv zeta.
  assert (N : get_size (mkSurface (4, 4) Blank) ≠ (5, 5)) by discriminate.
  pose proof (none_image_raises (5, 5) (mk (4, 4) None None (Some 0%nat) None)
                [mkSurface (4, 4) Blank] (mkSurface (4, 4) Blank)) as [E K].
  split; [exact E|]. repeat (split; [reflexivity|]). split; [exact N|].
  exact (K eq_refl eq_refl N).
Defined.

Lemma empty_tile_raises_witness :
  let empty := mkSurface (0, 3) (Loaded "empty") in
  [empty] !! 0%nat = Some empty ∧ 0 ≤ get_width empty ∧ 0 ≤ get_height empty ∧
  (get_width empty = 0 ∨ get_height empty = 0) ∧ 0 < 4 ∧ 0 < 6 ∧
  create_tiled_surface (mk (4, 6) (Some 0%nat) None None None) [empty] =
    Exn ValueError ([empty] ++ [mkSurface (4, 6) Blank]) ∧
  __init__ (4, 6) (Some 0%nat) [empty] =
    Exn ValueError ([empty] ++ [mkSurface (4, 6) Blank]).
Proof.
  cbv zeta.
  assert (P0 : 0 ≤ get_width (mkSurface (0, 3) (Loaded "empty"))) by discriminate.
  assert (P3 : 0 ≤ get_height (mkSurface (0, 3) (Loaded "empty"))) by discriminate.
  assert (Z0 : get_width (mkSurface (0, 3) (Loaded "empty")) = 0
               ∨ get_height (mkSurface (0, 3) (Loaded "empty")) = 0) by (left; reflexivity).
  split; [reflexivity|]. split; [exact P0|]. split; [exact P3|]. split; [exact Z0|].
  split; [reflexivity|]. split; [reflexivity|].
  exact (empty_tile_raises [mkSurface (0, 3) (Loaded "empty")] 0%nat
           (mkSurface (0, 3) (Loaded "empty")) 4 6 eq_refl P0 P3 Z0 eq_refl eq_refl).
Defined.

Lemma constructor_image_fits_witness :
  [tile23] !! 0%nat = Some tile23 ∧ 0 < get_width tile23 ∧ 0 < get_height tile23 ∧
  0 ≤ 3 ∧ 0 ≤ 2 ∧
  ∃ self h' s,
    __init__ (3, 2) (Some 0%nat) [tile23] = Val self h' ∧
    rect_size self = (3, 2) ∧ _tile self = Some 0%nat ∧
    shown self h' = Some s ∧ get_size s = (3, 2) ∧
    (is_Some (original_image self) ↔
     3 = get_height tile23 ∧ 2 = get_width tile23 ∧ get_width tile23 ≠ get_height tile23).
Proof.
  assert (P3 : 0 ≤ 3) by discriminate. assert (P2 : 0 ≤ 2) by discriminate.
  repeat (split; [reflexivity|]). split; [exact P3|]. split; [exact P2|].
  exact (constructor_image_fits [tile23] 0%nat tile23 3 2 eq_refl eq_refl eq_refl P3 P2).
Defined.

Lemma set_dimensions_again_does_nothing_witness :
  let h := [tile23; mkSurface (5, 5) Blank] in
  let self0 := mk (5, 5) (Some 0%nat) None (Some 1%nat) None in
  h !! 0%nat = Some tile23 ∧ 0 < get_width tile23 ∧ 0 < get_height tile23 ∧
  0 ≤ 4 ∧ 0 ≤ 6 ∧
  (get_width tile23 = get_height tile23 ∨ ¬ (4 = get_height tile23 ∧ 6 = get_width tile23)) ∧
  _tile self0 = Some 0%nat ∧ shown self0 h = Some (mkSurface (5, 5) Blank) ∧
  ∃ self h1 s,
    set_dimensions (4, 6) self0 h = Val self h1 ∧
    shown self h1 = Some s ∧ get_size s = (4, 6) ∧ rect_size self = (4, 6) ∧
    set_dimensions (4, 6) self h1 = Val self h1.
Proof.
  cbv zeta.
  assert (P4 : 0 ≤ 4) by discriminate. assert (P6 : 0 ≤ 6) by discriminate.
  assert (C : get_width tile23 = get_height tile23
              ∨ ¬ (4 = get_height tile23 ∧ 6 = get_width tile23)).
  { right. intros [? _]. discriminate. }
  repeat (split; [reflexivity|]). split; [exact P4|]. split; [exact P6|]. split; [exact C|].
  repeat (split; [reflexivity|]).
  exact (set_dimensions_again_does_nothing [tile23; mkSurface (5, 5) Blank] 0%nat tile23
           (mkSurface (5, 5) Blank) (mk (5, 5) (Some 0%nat) None (Some 1%nat) None) 4 6
           eq_refl eq_refl eq_refl P4 P6 C eq_refl eq_refl).
Defined.

Lemma tiles_cover_target_iff_square_witness :
  _tile (blank_widget (4, 6)) = Some 0%nat ∧ [tile23] !! 0%nat = Some tile23 ∧
  rect_size (blank_widget (4, 6)) = (4, 6) ∧
  0 < get_width tile23 ∧ 0 < get_height tile23 ∧ 0 ≤ 4 ∧ 0 ≤ 6 ∧
  ¬ (4 = get_height tile23 ∧ 6 = get_width tile23) ∧
  get_width tile23 < get_height tile23 ∧ get_width tile23 < 4 ∧ 0 < 6 ∧
  ∃ h' s,
    create_tiled_surface (blank_widget (4, 6)) [tile23] = Val (Some 1%nat) h' ∧
    h' !! 1%nat = Some s ∧ get_size s = (4, 6) ∧
    ¬ covered tile23 s (get_width tile23) 0.
Proof.
  assert (P4 : 0 ≤ 4) by discriminate. assert (P6 : 0 ≤ 6) by discriminate.
  assert (N : ¬ (4 = get_height tile23 ∧ 6 = get_width tile23)).
  { intros [? _]. discriminate. }
  repeat (split; [reflexivity|]). split; [exact P4|]. split; [exact P6|]. split; [exact N|].
  repeat (split; [reflexivity|]).
  destruct (tiles_cover_target_iff_square [tile23] (blank_widget (4, 6)) 0%nat tile23 4 6
              eq_refl eq_refl eq_refl eq_refl eq_refl P4 P6 N)
    as (h' & s & E & L & S & _ & G & _).
  exists h', s. repeat (split; [assumption|]).
  exact (G eq_refl eq_refl eq_refl).
Defined.

Lemma set_dimensions_as_fresh_witness :
  let h := [tile23; mkSurface (5, 5) Blank] in
  let self0 := mk (5, 5) (Some 0%nat) None (Some 1%nat) None in
  h !! 0%nat = Some tile23 ∧ 0 < get_width tile23 ∧ 0 < get_height tile23 ∧
  0 ≤ 4 ∧ 0 ≤ 6 ∧
  (get_width tile23 = get_height tile23 ∨ ¬ (4 = get_height tile23 ∧ 6 = get_width tile23)) ∧
  _tile self0 = Some 0%nat ∧ shown self0 h = Some (mkSurface (5, 5) Blank) ∧
  get_size (mkSurface (5, 5) Blank) ≠ (4, 6) ∧
  ∃ self h1 fresh h2 s,
    set_dimensions (4, 6) self0 h = Val self h1 ∧
    __init__ (4, 6) (Some 0%nat) h = Val fresh h2 ∧
    shown self h1 = Some s ∧ shown fresh h2 = Some s.
Proof.
  cbv zeta.
  assert (P4 : 0 ≤ 4) by discriminate. assert (P6 : 0 ≤ 6) by discriminate.
  assert (C : get_width tile23 = get_height tile23
              ∨ ¬ (4 = get_height tile23 ∧ 6 = get_width tile23)).
  { right. intros [? _]. discriminate. }
  assert (S : get_size (mkSurface (5, 5) Blank) ≠ (4, 6)) by discriminate.
  repeat (split; [reflexivity|]). split; [exact P4|]. split; [exact P6|]. split; [exact C|].
  repeat (split; [reflexivity|]). split; [exact S|].
  exact (UIImageTiledFacts.set_dimensions_as_fresh
           [tile23; mkSurface (5, 5) Blank] 0%nat tile23
           (mkSurface (5, 5) Blank) (mk (5, 5) (Some 0%nat) None (Some 1%nat) None) 4 6
           eq_refl eq_refl eq_refl P4 P6 C eq_refl eq_refl S).
Defined.

End UIImageTiledHeapFacts.
